(** * stark-voice-agent: the browser client's audio and session engine

    A shallow embedding of [static/script.js]: the byte-level container
    builder and chunk reassembly of [AudioPlayer], the capture-side
    resampler and PCM16 encoder, and the event handlers that drive the
    session (inbound channel messages, capture callbacks, decode results,
    the settle timer).

    Buffers are lists of bytes, JavaScript numbers are IEEE-754 binary64
    values (the primitive [float], specified by [SpecFloat] at precision
    53 and emax 1024), and the handlers are functions over an explicit
    client state. *)

From Stdlib Require Import ZArith Lia Bool String Ascii Strings.Byte.
From Stdlib Require Import Floats.
From stdpp Require Import base list.

Local Open Scope Z_scope.
Set Default Proof Using "Type".

(** ** Loops *)

(** [for (let i = 0; i < n; i++) body(i)] over an accumulator. *)
Definition for_upto {A : Type} (n : nat) (body : nat -> A -> A) (a : A) : A :=
  fold_left (fun acc i => body i acc) (seq 0 n) a.

(** ** Bytes and typed arrays *)

Module Bytes.

(** An [ArrayBuffer] / [Uint8Array]: its bytes, in order. *)
Abbreviation buffer := (list byte).

(** Storing a number into a [Uint8Array] or through [DataView.setUint8]
    keeps it modulo 256. *)
Definition ToUint8 (z : Z) : byte :=
  match Byte.of_N (Z.to_N (z mod 256)) with
  | Some b => b
  | None => x00
  end.

Definition byte_to_Z (b : byte) : Z := Z.of_N (Byte.to_N b).

(** [new ArrayBuffer(n)] / [new Uint8Array(n)]: zero-filled. *)
Definition new_buffer (n : nat) : buffer := replicate n x00.

(** [s.charCodeAt(i)], for the 8-bit strings the client handles. *)
Definition charCodeAt (s : string) (i : nat) : Z :=
  match String.get i s with
  | Some c => Z.of_N (N_of_ascii c)
  | None => 0
  end.

(** [target.set(source, offset)] for in-range copies. *)
Definition typed_set (target source : buffer) (offset : nat) : buffer :=
  take offset target ++ source ++ drop (offset + length source) target.

(** *** DataView writes (little-endian where the code passes [true]) *)

Definition setUint8 (view : buffer) (offset : nat) (value : Z) : buffer :=
  <[offset := ToUint8 value]> view.

Definition setUint16_le (view : buffer) (offset : nat) (value : Z) : buffer :=
  let v := value mod 2 ^ 16 in
  setUint8 (setUint8 view offset v) (offset + 1) (v / 2 ^ 8).

Definition setUint32_le (view : buffer) (offset : nat) (value : Z) : buffer :=
  let v := value mod 2 ^ 32 in
  setUint8
    (setUint8
       (setUint8 (setUint8 view offset v) (offset + 1) (v / 2 ^ 8))
       (offset + 2) (v / 2 ^ 16))
    (offset + 3) (v / 2 ^ 24).

(** *** DataView reads, used to state what a header field holds *)

Definition getUint8 (view : buffer) (offset : nat) : Z :=
  match view !! offset with
  | Some b => byte_to_Z b
  | None => 0
  end.

Definition getUint16_le (view : buffer) (offset : nat) : Z :=
  getUint8 view offset + 2 ^ 8 * getUint8 view (offset + 1).

Definition getUint32_le (view : buffer) (offset : nat) : Z :=
  getUint8 view offset
  + 2 ^ 8 * getUint8 view (offset + 1)
  + 2 ^ 16 * getUint8 view (offset + 2)
  + 2 ^ 24 * getUint8 view (offset + 3).

(** The bytes of an 8-bit string. *)
Definition string_bytes (s : string) : buffer :=
  map byte_of_ascii (list_ascii_of_string s).

End Bytes.

(** ** AudioPlayer: the container builder *)

Module Wav.
Import Bytes.

(** [AudioPlayer.writeString(view, offset, string)]. *)
Definition writeString (view : buffer) (offset : nat) (s : string) : buffer :=
  for_upto (String.length s)
    (fun i view => setUint8 view (offset + i) (charCodeAt s i)) view.

(** [AudioPlayer.createWavBuffer(pcmData)]. *)
Definition createWavBuffer (pcmData : buffer) : buffer :=
  let sampleRate := 44100 in
  let numChannels := 1 in
  let bytesPerSample := 2 in
  let blockAlign := numChannels * bytesPerSample in
  let byteRate := sampleRate * blockAlign in
  let dataSize := length pcmData in
  let view := new_buffer (44 + dataSize) in
  let view := writeString view 0 "RIFF" in
  let view := setUint32_le view 4 (36 + Z.of_nat dataSize) in
  let view := writeString view 8 "WAVE" in
  let view := writeString view 12 "fmt " in
  let view := setUint32_le view 16 16 in
  let view := setUint16_le view 20 1 in
  let view := setUint16_le view 22 numChannels in
  let view := setUint32_le view 24 sampleRate in
  let view := setUint32_le view 28 byteRate in
  let view := setUint16_le view 32 blockAlign in
  let view := setUint16_le view 34 (bytesPerSample * 8) in
  let view := writeString view 36 "data" in
  let view := setUint32_le view 40 (Z.of_nat dataSize) in
  take 44 view ++ typed_set (drop 44 view) pcmData 0.

(** The four little-endian bytes of a 32-bit field. *)
Definition le32 (v : Z) : buffer :=
  [ToUint8 v; ToUint8 (v / 2 ^ 8); ToUint8 (v / 2 ^ 16); ToUint8 (v / 2 ^ 24)].

Definition le16 (v : Z) : buffer :=
  [ToUint8 v; ToUint8 (v / 2 ^ 8)].

(** The 44-byte header the layout table prescribes for a payload of
    [n] bytes. *)
Definition wav_header (n : nat) : buffer :=
  string_bytes "RIFF" ++ le32 (36 + Z.of_nat n)
  ++ string_bytes "WAVE" ++ string_bytes "fmt "
  ++ le32 16 ++ le16 1 ++ le16 1 ++ le32 44100 ++ le32 88200
  ++ le16 2 ++ le16 16
  ++ string_bytes "data" ++ le32 (Z.of_nat n).

End Wav.

(** ** JavaScript numbers *)

Module Num.

Definition number := float.

(** The number nearest to an integer; [szero] is the sign given to a
    zero result. *)
Definition of_Z_signed (z : Z) (szero : bool) : number :=
  SF2Prim (binary_normalize prec emax z 0 szero).

Definition of_Z (z : Z) : number := of_Z_signed z false.
Definition of_nat (n : nat) : number := of_Z (Z.of_nat n).

(** The value [(-1)^s * m * 2^e] of a finite number, rounded to an
    integer downwards, upwards, towards zero, and to nearest with ties
    upwards. *)
Definition floorZ (s : bool) (m : positive) (e : Z) : Z :=
  Z.shiftl (cond_Zopp s (Zpos m)) e.

Definition ceilZ (s : bool) (m : positive) (e : Z) : Z :=
  - Z.shiftl (- cond_Zopp s (Zpos m)) e.

Definition truncZ (s : bool) (m : positive) (e : Z) : Z :=
  cond_Zopp s (Z.shiftl (Zpos m) e).

Definition roundZ (s : bool) (m : positive) (e : Z) : Z :=
  if 0 <=? e then Z.shiftl (cond_Zopp s (Zpos m)) e
  else (2 * cond_Zopp s (Zpos m) + 2 ^ (- e)) / 2 ^ (1 - e).

(** [Math.floor], [Math.ceil], [Math.round]: a finite number with a
    non-negative exponent is already integral; NaN, zeros and infinities
    are returned as they are. *)
Definition Math_integral (f : bool -> positive -> Z -> Z) (x : number) : number :=
  match Prim2SF x with
  | S754_finite s m e => if 0 <=? e then x else of_Z_signed (f s m e) s
  | _ => x
  end.

Definition Math_floor : number -> number := Math_integral floorZ.
Definition Math_ceil : number -> number := Math_integral ceilZ.
Definition Math_round : number -> number := Math_integral roundZ.

(** [Math.min] and [Math.max]: NaN if either argument is NaN, and -0 is
    below +0. *)
Definition Math_min (x y : number) : number :=
  if is_nan x || is_nan y then nan
  else if (x <? y)%float then x
  else if (y <? x)%float then y
  else if get_sign x then x else y.

Definition Math_max (x y : number) : number :=
  if is_nan x || is_nan y then nan
  else if (x <? y)%float then y
  else if (y <? x)%float then x
  else if get_sign x then y else x.

(** The conversion a store into an [Int16Array] applies: the number is
    truncated to an integer (NaN, zeros and infinities give 0) and wrapped
    modulo 2^16 into the signed range. *)
Definition wrap16 (z : Z) : Z :=
  let r := z mod 2 ^ 16 in
  if r <? 2 ^ 15 then r else r - 2 ^ 16.

(** The integer part of a number; 0 for NaN, zeros and infinities. *)
Definition truncate (x : number) : Z :=
  match Prim2SF x with
  | S754_finite s m e => truncZ s m e
  | _ => 0
  end.

Definition ToInt16 (x : number) : Z := wrap16 (truncate x).

(** The length conversion of [new Float32Array(length)]: NaN counts as 0,
    a negative or over-large length throws a RangeError ([None]). *)
Definition ToIndex (x : number) : option nat :=
  match Prim2SF x with
  | S754_nan | S754_zero _ => Some 0%nat
  | S754_infinity _ => None
  | S754_finite s m e =>
      let z := truncZ s m e in
      if (0 <=? z) && (z <=? 2 ^ 53 - 1) then Some (Z.to_nat z) else None
  end.

(** The rounding a store into a [Float32Array] applies ([Math.fround]):
    to the nearest binary32 value, ties to even. *)
Definition fround (x : number) : number :=
  match Prim2SF x with
  | S754_finite s m e => SF2Prim (binary_round 24 128 s m e)
  | _ => x
  end.

(** The integer a number denotes when it is used as an array index. *)
Definition index_of_number (x : number) : option Z :=
  match Prim2SF x with
  | S754_zero _ => Some 0
  | S754_finite s m e =>
      if Z.eqb (floorZ s m e) (ceilZ s m e) then Some (floorZ s m e) else None
  | _ => None
  end.

(** [arr[k]] read as a number: an index out of range reads [undefined],
    which arithmetic and typed-array stores convert to NaN. *)
Definition read (arr : list number) (k : Z) : number :=
  if k <? 0 then nan
  else match arr !! Z.to_nat k with
       | Some v => v
       | None => nan
       end.

Definition get (arr : list number) (k : number) : number :=
  match index_of_number k with
  | Some z => read arr z
  | None => nan
  end.

(** Whether the bits a right shift discarded were not all zero. *)
Definition inexact (mrs : shr_record) : bool := shr_r mrs || shr_s mrs.

End Num.

(** ** Audio processing utilities *)

Module Audio.
Import Num.
Local Open Scope float_scope.

(** [resampleBuffer(inputBuffer, fromSampleRate, toSampleRate)].
    [None] is the RangeError of [new Float32Array(newLength)]. The loop
    counter runs below [newLength], which is the array's length whenever
    the array could be allocated. *)
Definition resampleBuffer (inputBuffer : list number)
    (fromSampleRate toSampleRate : number) : option (list number) :=
  if fromSampleRate =? toSampleRate then Some inputBuffer
  else
    let sampleRateRatio := fromSampleRate / toSampleRate in
    let newLength :=
      Math_round (of_nat (length inputBuffer) / sampleRateRatio) in
    match ToIndex newLength with
    | None => None
    | Some n =>
        Some (for_upto n
          (fun i result =>
             let index := of_nat i * sampleRateRatio in
             let indexFloor := Math_floor index in
             let indexCeil := Math_ceil index in
             if of_nat (length inputBuffer) <=? indexCeil then
               <[i := fround
                   (read inputBuffer (Z.of_nat (length inputBuffer) - 1))]>
                 result
             else
               let weight := index - indexFloor in
               <[i := fround
                   (get inputBuffer indexFloor * (1 - weight)
                    + get inputBuffer indexCeil * weight)]> result)
          (replicate n zero))
    end.

(** [convertTo16BitPCM(input)]; the result is the [Int16Array]'s
    elements. *)
Definition convertTo16BitPCM (input : list number) : list Z :=
  for_upto (length input)
    (fun i output =>
       let s := Math_max (-1) (Math_min 1 (read input (Z.of_nat i))) in
       <[i := ToInt16 (if s <? 0 then s * 32768 else s * 32767)]> output)
    (replicate (length input) 0%Z).


End Audio.

(** ** The client: state, handlers, events *)

Module Client.
Import Bytes Wav Num Audio.

(** *** AudioPlayer *)

Inductive AudioContextState := ctx_running | ctx_suspended | ctx_closed.

(** [audioContext] is [None] while the field is [null]. *)
Record AudioPlayer := mkAudioPlayer {
  audioContext : option AudioContextState;
  rawAudioChunks : list buffer
}.

(** [start()]: a missing or closed context is replaced by a new one, a
    suspended one is resumed; the chunk list is reset. *)
Definition start (p : AudioPlayer) : AudioPlayer :=
  {| audioContext :=
       match audioContext p with
       | None | Some ctx_closed => Some ctx_running
       | Some ctx_suspended => Some ctx_running
       | Some ctx_running => Some ctx_running
       end;
     rawAudioChunks := [] |}.

(** [stop()]: a running context is closed; the chunk list is reset. *)
Definition stop (p : AudioPlayer) : AudioPlayer :=
  {| audioContext :=
       match audioContext p with
       | Some ctx_running => Some ctx_closed
       | c => c
       end;
     rawAudioChunks := [] |}.

(** [queueChunk(arrayBuffer)]. *)
Definition queueChunk (arrayBuffer : buffer) (p : AudioPlayer) : AudioPlayer :=
  {| audioContext := audioContext p;
     rawAudioChunks := rawAudioChunks p ++ [arrayBuffer] |}.

(** The first half of [play()]: the total length, the zero-filled
    [combined] array, and the copy loop with its running offset. *)
Definition combine (chunks : list buffer) : buffer :=
  let totalLength :=
    fold_left (fun acc chunk => (acc + length chunk)%nat) chunks 0%nat in
  let combined := new_buffer totalLength in
  fst (fold_left
         (fun '(combined, offset) chunk =>
            (typed_set combined chunk offset, (offset + length chunk)%nat))
         chunks (combined, 0%nat)).

(** *** Page state *)

Inductive Role := user | assistant.

(** The children of the chat log: the centred initial message (the one
    element of class [initial-message]); a message whose bubble holds the
    character data [text] and no element, the bubble of an assistant
    message being of class [assistant-bubble]; or a message whose text
    was written through [innerHTML] and may have been parsed into
    elements of any class. What the two selectors of the script find in a
    log that holds a message of the last kind is the HTML parser's doing:
    such a log is not followed, and nothing is said about its nodes. *)
Inductive ChatNode :=
  | InitialMessage
  | Bubble (role : Role) (text : string)
  | Markup.

Inductive ButtonState := btn_idle | btn_recording | btn_processing.

Inductive ReadyState := CONNECTING | OPEN | CLOSING | CLOSED.

Record Status := mkStatus { status_message : string; status_isError : bool }.

(** The page's mutable variables and what the platform has been handed:
    [decoding] holds the containers passed to [decodeAudioData] whose
    promise has not settled, [started] the containers whose decoded audio
    was started, [sent] the binary frames passed to [websocket.send] (each
    an [Int16Array]'s samples), [timers] the pending settle timeouts. *)
Record Client := mkClient {
  isRecording : bool;
  audioPlayer : AudioPlayer;
  decoding : list buffer;
  started : list buffer;
  chatStatus : Status;
  chatHistory : list ChatNode;
  recordButton : ButtonState;
  scriptNode : bool;
  mediaStreamSource : bool;
  visualizer : bool;
  readyState : ReadyState;
  sampleRate : number;
  sent : list (list Z);
  timers : nat
}.

Definition set_isRecording (b : bool) (st : Client) : Client :=
  mkClient b (audioPlayer st) (decoding st) (started st) (chatStatus st)
    (chatHistory st) (recordButton st) (scriptNode st) (mediaStreamSource st)
    (visualizer st) (readyState st) (sampleRate st) (sent st) (timers st).

Definition set_audioPlayer (p : AudioPlayer) (st : Client) : Client :=
  mkClient (isRecording st) p (decoding st) (started st) (chatStatus st)
    (chatHistory st) (recordButton st) (scriptNode st) (mediaStreamSource st)
    (visualizer st) (readyState st) (sampleRate st) (sent st) (timers st).

Definition set_decoding (d : list buffer) (st : Client) : Client :=
  mkClient (isRecording st) (audioPlayer st) d (started st) (chatStatus st)
    (chatHistory st) (recordButton st) (scriptNode st) (mediaStreamSource st)
    (visualizer st) (readyState st) (sampleRate st) (sent st) (timers st).

Definition set_started (d : list buffer) (st : Client) : Client :=
  mkClient (isRecording st) (audioPlayer st) (decoding st) d (chatStatus st)
    (chatHistory st) (recordButton st) (scriptNode st) (mediaStreamSource st)
    (visualizer st) (readyState st) (sampleRate st) (sent st) (timers st).

Definition set_chatHistory (h : list ChatNode) (st : Client) : Client :=
  mkClient (isRecording st) (audioPlayer st) (decoding st) (started st)
    (chatStatus st) h (recordButton st) (scriptNode st) (mediaStreamSource st)
    (visualizer st) (readyState st) (sampleRate st) (sent st) (timers st).

Definition set_capture (node source vis : bool) (st : Client) : Client :=
  mkClient (isRecording st) (audioPlayer st) (decoding st) (started st)
    (chatStatus st) (chatHistory st) (recordButton st) node source vis
    (readyState st) (sampleRate st) (sent st) (timers st).

Definition set_sent (s : list (list Z)) (st : Client) : Client :=
  mkClient (isRecording st) (audioPlayer st) (decoding st) (started st)
    (chatStatus st) (chatHistory st) (recordButton st) (scriptNode st)
    (mediaStreamSource st) (visualizer st) (readyState st) (sampleRate st) s
    (timers st).

Definition set_timers (n : nat) (st : Client) : Client :=
  mkClient (isRecording st) (audioPlayer st) (decoding st) (started st)
    (chatStatus st) (chatHistory st) (recordButton st) (scriptNode st)
    (mediaStreamSource st) (visualizer st) (readyState st) (sampleRate st)
    (sent st) n.

(** [updateStatus(message, isError)]. *)
Definition updateStatus (message : string) (isError : bool) (st : Client) : Client :=
  mkClient (isRecording st) (audioPlayer st) (decoding st) (started st)
    (mkStatus message isError) (chatHistory st) (recordButton st)
    (scriptNode st) (mediaStreamSource st) (visualizer st) (readyState st)
    (sampleRate st) (sent st) (timers st).

(** [updateRecordButton(state)]. *)
Definition updateRecordButton (b : ButtonState) (st : Client) : Client :=
  mkClient (isRecording st) (audioPlayer st) (decoding st) (started st)
    (chatStatus st) (chatHistory st) b (scriptNode st) (mediaStreamSource st)
    (visualizer st) (readyState st) (sampleRate st) (sent st) (timers st).

(** A log that is followed: every message in it holds character data
    only. *)
Definition followed (h : list ChatNode) : bool :=
  forallb (fun n => match n with Markup => false | _ => true end) h.

(** Whether [text], spliced into the markup of a bubble and assigned to
    [innerHTML], is parsed as the character data [text] itself: without
    "<" no tag is opened and without "&" no character reference is read;
    NUL is dropped by the parser and a carriage return becomes a line
    feed. *)
Definition plain (text : string) : bool :=
  forallb
    (fun c => let n := N_of_ascii c in
              negb ((n =? 0)%N || (n =? 13)%N || (n =? 38)%N || (n =? 60)%N))
    (list_ascii_of_string text).

(** The message element [addMessageToHistory] builds. *)
Definition written (role : Role) (text : string) : ChatNode :=
  if plain text then Bubble role text else Markup.

(** [chatHistory.querySelector('.initial-message')] followed by
    [remove()], on a log that is followed: the first initial message, if
    any, leaves the log. *)
Fixpoint remove_initial (h : list ChatNode) : list ChatNode :=
  match h with
  | [] => []
  | InitialMessage :: h' => h'
  | n :: h' => n :: remove_initial h'
  end.

(** [addMessageToHistory(text, role)]. In a log that is not followed the
    selector may find its element inside a message; the log stays not
    followed. *)
Definition addMessageToHistory (text : string) (role : Role) (st : Client) : Client :=
  let h := chatHistory st in
  let h := if followed h then remove_initial h else h in
  set_chatHistory (h ++ [written role text]) st.

(** [querySelectorAll('.assistant-bubble')] and the assignment to
    [textContent] of its last element, on a log that is followed: the
    bubble of the last assistant message holds the character data [text],
    which is not parsed. *)
Fixpoint replace_last_assistant (text : string) (h : list ChatNode)
    : option (list ChatNode) :=
  match h with
  | [] => None
  | n :: h' =>
      match replace_last_assistant text h' with
      | Some h'' => Some (n :: h'')
      | None =>
          match n with
          | Bubble assistant _ => Some (Bubble assistant text :: h')
          | _ => None
          end
      end
  end.

(** [updateAssistantMessage(text)]. In a log that is not followed the
    last element of the class may lie inside a message; the log stays not
    followed. *)
Definition updateAssistantMessage (text : string) (st : Client) : Client :=
  if followed (chatHistory st) then
    match replace_last_assistant text (chatHistory st) with
    | Some h => set_chatHistory h st
    | None => st
    end
  else st.

(** [audioPlayer.play()] up to its [await]: nothing happens on an empty
    chunk list; otherwise the chunks are combined, framed and handed to
    [decodeAudioData]. Without a context the call throws inside the [try]
    and the [catch] reports it. *)
Definition play (st : Client) : Client :=
  let p := audioPlayer st in
  if (length (rawAudioChunks p) =? 0)%nat then st
  else
    let combined := combine (rawAudioChunks p) in
    let wavBuffer := createWavBuffer combined in
    match audioContext p with
    | Some _ => set_decoding (decoding st ++ [wavBuffer]) st
    | None => updateStatus "Error playing back audio" true st
    end.

(** The rest of [play()], run when the [k]-th pending decode settles: on
    success the decoded audio is started and the chunk list reset, on
    failure the [catch] reports it. *)
Definition play_resume (k : nat) (decoded : bool) (st : Client) : Client :=
  match decoding st !! k with
  | None => st
  | Some wavBuffer =>
      let st := set_decoding (delete k (decoding st)) st in
      if decoded then
        set_audioPlayer
          {| audioContext := audioContext (audioPlayer st);
             rawAudioChunks := [] |}
          (set_started (started st ++ [wavBuffer]) st)
      else updateStatus "Error playing back audio" true st
  end.

(** [stopChatVisualizer()]. *)
Definition stopChatVisualizer (st : Client) : Client :=
  set_capture (scriptNode st) (mediaStreamSource st) false st.

(** [stopStreaming()]: the 2000 ms callback is left pending in
    [timers]. *)
Definition stopStreaming (st : Client) : Client :=
  if negb (isRecording st) then st
  else
    let st := set_isRecording false st in
    let st := updateRecordButton btn_processing st in
    let st := set_timers (S (timers st)) st in
    let st := set_capture false (mediaStreamSource st) (visualizer st) st in
    let st := set_capture (scriptNode st) false (visualizer st) st in
    stopChatVisualizer st.

(** The callback [stopStreaming] scheduled. *)
Definition settle (st : Client) : Client :=
  match timers st with
  | O => st
  | S n =>
      updateStatus "Ready for command." false
        (updateRecordButton btn_idle (set_timers n st))
  end.

(** *** Inbound messages *)

(** A parsed inbound message: its [type] and the fields the handlers
    read, each absent or a string. *)
Record InboundMessage := mkMessage {
  msg_type : string;
  msg_text : option string;
  msg_message : option string;
  msg_audio_data : option string
}.

(** What [onmessage] makes of [event.data]: not a string, a string that
    trims to nothing, a string [JSON.parse] rejects, or a parsed
    message. *)
Inductive MessageData :=
  | NotAString
  | Blank
  | Unparsable
  | Json (message : InboundMessage).

(** A value interpolated into a template literal. *)
Definition template (v : option string) : string :=
  match v with
  | Some s => s
  | None => "undefined"
  end.

(** A string is truthy unless empty; a missing field is falsy. *)
Definition truthy (v : option string) : bool :=
  match v with
  | Some s => negb (String.eqb s "")
  | None => false
  end.

Section Platform.

(** [window.atob]: the binary string a base64 text decodes to, [None]
    where it throws. *)
Variable atob : string -> option string.

(** Whether [s.trim() === '']. *)
Variable trims_to_empty : string -> bool.

(** [base64ToArrayBuffer(base64String)]. *)
Definition base64ToArrayBuffer (base64String : string) : option buffer :=
  match atob base64String with
  | None => None
  | Some binaryString =>
      let len := String.length binaryString in
      Some (for_upto len
              (fun i bytes => <[i := ToUint8 (charCodeAt binaryString i)]> bytes)
              (new_buffer len))
  end.

(** [handleAudioStreamStart()]. *)
Definition handleAudioStreamStart (st : Client) : Client :=
  addMessageToHistory "..." assistant
    (updateStatus "Receiving audio stream..." false st).

(** [handleAudioChunk(chunkData)]; an exception from [atob] leaves the
    handler before anything is queued. *)
Definition handleAudioChunk (chunkData : InboundMessage) (st : Client) : Client :=
  match msg_audio_data chunkData with
  | None => st
  | Some audio_data =>
      if negb (truthy (Some audio_data)) then st
      else
        match base64ToArrayBuffer audio_data with
        | None => st
        | Some arrayBuffer =>
            set_audioPlayer (queueChunk arrayBuffer (audioPlayer st)) st
        end
  end.

(** [handleAudioStreamEnd()]. *)
Definition handleAudioStreamEnd (st : Client) : Client :=
  play (updateStatus "Audio stream complete. Playing..." false st).

(** [websocket.onmessage]. *)
Definition websocket_onmessage (data : MessageData) (st : Client) : Client :=
  match data with
  | NotAString | Blank | Unparsable => st
  | Json message =>
      let type := msg_type message in
      if String.eqb type "error" then
        stopStreaming
          (updateStatus ("Server Error: " ++ template (msg_message message))
             true st)
      else if String.eqb type "transcription" then
        match msg_text message with
        | Some text =>
            if truthy (Some text) && negb (trims_to_empty text)
            then addMessageToHistory text user st
            else st
        | None => st
        end
      else if String.eqb type "audio_stream_start" then
        handleAudioStreamStart st
      else if String.eqb type "audio_chunk" then
        handleAudioChunk message st
      else if String.eqb type "audio_stream_end" then
        handleAudioStreamEnd st
      else if String.eqb type "llm_response_text" then
        updateAssistantMessage
          (match msg_text message with Some t => t | None => "" end) st
      else st
  end.

(** [websocket.onclose] and [websocket.onerror]. *)
Definition websocket_onclose (st : Client) : Client :=
  let st := updateStatus "Recording stopped." false st in
  if isRecording st then stopStreaming st else st.

Definition websocket_onerror (st : Client) : Client :=
  let st := updateStatus "WebSocket connection error." true st in
  if isRecording st then stopStreaming st else st.

(** The target rate of the outbound stream. *)
Definition TARGET_SAMPLE_RATE : number := 16000%float.

(** [scriptNode.onaudioprocess]; [pcmData] is channel 0 of the input
    block. A RangeError from the resampler leaves the callback before the
    send. *)
Definition onaudioprocess (pcmData : list number) (st : Client) : Client :=
  if negb (isRecording st)
     || negb (match readyState st with OPEN => true | _ => false end)
  then st
  else
    match resampleBuffer pcmData (sampleRate st) TARGET_SAMPLE_RATE with
    | None => st
    | Some resampledData =>
        let pcm16Data := convertTo16BitPCM resampledData in
        set_sent (sent st ++ [pcm16Data]) st
    end.

(** *** The event loop *)

Inductive Event :=
  | Message (data : MessageData)
  | AudioProcess (pcmData : list number)
  | DecodeSettled (k : nat) (decoded : bool)
  | SettleTimeout
  | ChannelClosed
  | ChannelError.

Definition dispatch (ev : Event) (st : Client) : Client :=
  match ev with
  | Message data => websocket_onmessage data st
  | AudioProcess pcmData => onaudioprocess pcmData st
  | DecodeSettled k decoded => play_resume k decoded st
  | SettleTimeout => settle st
  | ChannelClosed => websocket_onclose st
  | ChannelError => websocket_onerror st
  end.

(** Events handled one after the other, in arrival order. *)
Definition run (evs : list Event) (st : Client) : Client :=
  fold_left (fun st ev => dispatch ev st) evs st.

(** A payload is decodable when it is a non-empty text that [atob]
    accepts; [decoded] are its bytes. *)
Definition decodes_to (audio_data : string) (decoded : buffer) : Prop :=
  audio_data <> ""%string /\
  exists b, atob audio_data = Some b /\ decoded = string_bytes b.

End Platform.

(** The inbound messages of the protocol. *)
Definition audio_stream_start : MessageData :=
  Json (mkMessage "audio_stream_start" None None None).

Definition audio_stream_end : MessageData :=
  Json (mkMessage "audio_stream_end" None None None).

Definition audio_chunk (audio_data : option string) : MessageData :=
  Json (mkMessage "audio_chunk" None None audio_data).

Definition error_message (message : option string) : MessageData :=
  Json (mkMessage "error" None message None).

(** The chunk messages of a list of payloads, in order. *)
Definition chunk_events (payloads : list string) : list Event :=
  map (fun a => Message (audio_chunk (Some a))) payloads.

End Client.

(** ** The page around the client: keys, session, channel set-up *)

Module Session.
Import Num Client.

(** [apiKeys]: each key [null], or the text of its input. *)
Record ApiKeys := mkKeys {
  gemini : option string;
  assemblyai : option string;
  murf : option string;
  tavily : option string;
  openweather : option string
}.

(** What [websocket.send] was given. *)
Inductive Wire :=
  | ConfigMessage (keys : ApiKeys)
  | AudioFrame (samples : list Z).

(** The client with the rest of the page: the keys, the settings dialog,
    the session identifier, the [getUserMedia] promises that have not
    settled, what was sent on the current [websocket] object in order,
    and the pending 500 ms callbacks that open the settings dialog. *)
Record Page := mkPage {
  client : Client;
  apiKeys : ApiKeys;
  settingsModalHidden : bool;
  sessionId : option string;
  micRequests : nat;
  wire : list Wire;
  modalTimers : nat
}.

Definition set_client (c : Client) (p : Page) : Page :=
  mkPage c (apiKeys p) (settingsModalHidden p) (sessionId p) (micRequests p)
    (wire p) (modalTimers p).

Definition set_settingsModalHidden (b : bool) (p : Page) : Page :=
  mkPage (client p) (apiKeys p) b (sessionId p) (micRequests p) (wire p)
    (modalTimers p).

Definition set_sessionId (id : option string) (p : Page) : Page :=
  mkPage (client p) (apiKeys p) (settingsModalHidden p) id (micRequests p)
    (wire p) (modalTimers p).

Definition set_micRequests (n : nat) (p : Page) : Page :=
  mkPage (client p) (apiKeys p) (settingsModalHidden p) (sessionId p) n
    (wire p) (modalTimers p).

Definition set_wire (w : list Wire) (p : Page) : Page :=
  mkPage (client p) (apiKeys p) (settingsModalHidden p) (sessionId p)
    (micRequests p) w (modalTimers p).

Definition set_modalTimers (n : nat) (p : Page) : Page :=
  mkPage (client p) (apiKeys p) (settingsModalHidden p) (sessionId p)
    (micRequests p) (wire p) n.

(** [checkRequiredKeys()]: the page after the call, and its result. *)
Definition checkRequiredKeys (p : Page) : Page * bool :=
  if negb (truthy (gemini (apiKeys p)))
     || negb (truthy (assemblyai (apiKeys p)))
     || negb (truthy (murf (apiKeys p)))
  then
    (set_client
       (updateStatus "API Keys required. Open settings to add them." true
          (client p)) p,
     false)
  else (p, true).

(** [initializeSession()]; [uuid] is what [crypto.randomUUID()]
    returned. The log is reset to its initial message. *)
Definition initializeSession (uuid : string) (p : Page) : Page :=
  let p := set_sessionId (Some uuid) p in
  let p := set_client (set_chatHistory [InitialMessage] (client p)) p in
  let p :=
    set_client
      (set_audioPlayer (stop (audioPlayer (client p))) (client p)) p in
  let '(p, ok) := checkRequiredKeys p in
  if negb ok then set_modalTimers (S (modalTimers p)) p
  else
    set_client
      (updateStatus "Session initialized. Ready for command." false (client p))
      p.

(** The callback [initializeSession] scheduled. *)
Definition modalTimeout (p : Page) : Page :=
  match modalTimers p with
  | O => p
  | S n => set_settingsModalHidden false (set_modalTimers n p)
  end.

(** The click handler of the clear button. *)
Definition clearHistory (p : Page) : Page :=
  let p := set_client (set_chatHistory [InitialMessage] (client p)) p in
  set_client (set_audioPlayer (stop (audioPlayer (client p))) (client p)) p.

(** [startStreaming()] up to its [await]: without the required keys the
    settings dialog is shown and nothing else happens; otherwise the
    player is started and the microphone requested. *)
Definition startStreaming (p : Page) : Page :=
  let '(p, ok) := checkRequiredKeys p in
  if negb ok then set_settingsModalHidden false p
  else
    let p :=
      set_client
        (set_audioPlayer (start (audioPlayer (client p))) (client p)) p in
    set_micRequests (S (micRequests p)) p.

(** The rest of [startStreaming()] once the microphone was granted: a new
    [WebSocket], still connecting, on which nothing was sent. *)
Definition micGranted (p : Page) : Page :=
  match micRequests p with
  | O => p
  | S n =>
      let c := client p in
      let c :=
        mkClient (isRecording c) (audioPlayer c) (decoding c) (started c)
          (chatStatus c) (chatHistory c) (recordButton c) (scriptNode c)
          (mediaStreamSource c) (visualizer c) CONNECTING (sampleRate c)
          (sent c) (timers c) in
      set_wire [] (set_client c (set_micRequests n p))
  end.

(** The [catch] of [startStreaming()]. *)
Definition micDenied (p : Page) : Page :=
  match micRequests p with
  | O => p
  | S n =>
      set_client (updateStatus "Microphone access denied." true (client p))
        (set_micRequests n p)
  end.

(** The body of [websocket.onopen]: the configuration is passed to
    [websocket.send], recording is switched on and the capture graph built
    on a context running at the device rate. *)
Definition onopen_body (deviceRate : number) (p : Page) : Page :=
  let p := set_wire (wire p ++ [ConfigMessage (apiKeys p)]) p in
  let c := updateStatus "Connected. Recording..." false (client p) in
  let c := set_isRecording true c in
  let c := updateRecordButton btn_recording c in
  let c :=
    mkClient (isRecording c) (audioPlayer c) (decoding c) (started c)
      (chatStatus c) (chatHistory c) (recordButton c) true true true
      (readyState c) deviceRate (sent c) (timers c) in
  set_client c p.

(** [websocket.onopen] fired on the channel [websocket] holds: the
    platform has moved it to the open state. *)
Definition websocket_onopen (deviceRate : number) (p : Page) : Page :=
  let c := client p in
  let c :=
    mkClient (isRecording c) (audioPlayer c) (decoding c) (started c)
      (chatStatus c) (chatHistory c) (recordButton c) (scriptNode c)
      (mediaStreamSource c) (visualizer c) OPEN (sampleRate c) (sent c)
      (timers c) in
  onopen_body deviceRate (set_client c p).

(** [onopen] fired on a channel created by an earlier call, whose handlers
    stay installed: [websocket] in its body names the newest channel, on
    which [send] throws while it is connecting, before anything was
    assigned. *)
Definition stale_onopen (deviceRate : number) (p : Page) : Page :=
  match readyState (client p) with
  | CONNECTING => p
  | _ => onopen_body deviceRate p
  end.

(** The click handler of the record button. *)
Definition recordClick (p : Page) : Page :=
  if negb (isRecording (client p)) then startStreaming p
  else set_client (stopStreaming (client p)) p.

(** The platform moving the channel to the closing or the closed state,
    from the open or from the connecting one. *)
Definition channelLeavesOpen (closed : bool) (p : Page) : Page :=
  let c := client p in
  set_client
    (mkClient (isRecording c) (audioPlayer c) (decoding c) (started c)
       (chatStatus c) (chatHistory c) (recordButton c) (scriptNode c)
       (mediaStreamSource c) (visualizer c)
       (if closed then CLOSED else CLOSING) (sampleRate c) (sent c)
       (timers c)) p.

Inductive PageEvent :=
  | ClientEvent (ev : Event)
  | RecordClick
  | MicGranted
  | MicDenied
  | ChannelOpen (deviceRate : number)
  | StaleChannelOpen (deviceRate : number)
  | ChannelLeavesOpen (closed : bool)
  | ClearHistoryClick
  | NewSessionClick (uuid : string)
  | ModalTimeout.

Section Platform.
Variable atob : string -> option string.
Variable trims_to_empty : string -> bool.

(** A client event runs the client's handler; the frames it passed to
    [websocket.send] are entered in the channel's record. *)
Definition clientEvent (ev : Event) (p : Page) : Page :=
  let c := Client.dispatch atob trims_to_empty ev (client p) in
  set_wire
    (wire p ++ map AudioFrame (drop (length (sent (client p))) (sent c)))
    (set_client c p).

Definition dispatch (ev : PageEvent) (p : Page) : Page :=
  match ev with
  | ClientEvent ev => clientEvent ev p
  | RecordClick => recordClick p
  | MicGranted => micGranted p
  | MicDenied => micDenied p
  | ChannelOpen deviceRate => websocket_onopen deviceRate p
  | StaleChannelOpen deviceRate => stale_onopen deviceRate p
  | ChannelLeavesOpen closed => channelLeavesOpen closed p
  | ClearHistoryClick => clearHistory p
  | NewSessionClick uuid => initializeSession uuid p
  | ModalTimeout => modalTimeout p
  end.

Definition run (evs : list PageEvent) (p : Page) : Page :=
  fold_left (fun p ev => dispatch ev p) evs p.

End Platform.

End Session.

(** ** A reference [atob]

    The platform's base64 decoder, for closed examples: whitespace is
    dropped, one or two trailing [=] are removed when the length is a
    multiple of four, a length of 1 modulo 4 or a character outside the
    alphabet throws, and the bits left over after the last whole byte are
    discarded. *)

Module Base64.

Definition is_whitespace (c : ascii) : bool :=
  let n := N_of_ascii c in
  (n =? 9)%N || (n =? 10)%N || (n =? 12)%N || (n =? 13)%N || (n =? 32)%N.

Definition sextet (c : ascii) : option N :=
  let n := N_of_ascii c in
  if (65 <=? n)%N && (n <=? 90)%N then Some (n - 65)%N
  else if (97 <=? n)%N && (n <=? 122)%N then Some (n - 71)%N
  else if (48 <=? n)%N && (n <=? 57)%N then Some (n + 4)%N
  else if (n =? 43)%N then Some 62%N
  else if (n =? 47)%N then Some 63%N
  else None.

Definition is_pad (c : ascii) : bool := (N_of_ascii c =? 61)%N.

(** One or two trailing [=] are removed, given the text reversed. *)
Definition strip_padding (rev_data : list ascii) : list ascii :=
  match rev_data with
  | p1 :: p2 :: rest =>
      if is_pad p1 then (if is_pad p2 then rest else p2 :: rest) else rev_data
  | _ => rev_data
  end.

Fixpoint sextets (data : list ascii) : option (list N) :=
  match data with
  | [] => Some []
  | c :: data' =>
      match sextet c, sextets data' with
      | Some v, Some vs => Some (v :: vs)
      | _, _ => None
      end
  end.

Fixpoint octets (vs : list N) : list ascii :=
  match vs with
  | a :: b :: c :: d :: vs' =>
      let w := (a * 262144 + b * 4096 + c * 64 + d)%N in
      ascii_of_N (w / 65536) :: ascii_of_N ((w / 256) mod 256)
      :: ascii_of_N (w mod 256) :: octets vs'
  | [a; b; c] =>
      let w := (a * 4096 + b * 64 + c)%N in
      [ascii_of_N (w / 1024); ascii_of_N ((w / 4) mod 256)]
  | [a; b] => [ascii_of_N ((a * 64 + b) / 16)]
  | _ => []
  end.

Definition atob (s : string) : option string :=
  let data := filter (fun c => negb (is_whitespace c)) (list_ascii_of_string s) in
  let data :=
    if (length data mod 4 =? 0)%nat then rev (strip_padding (rev data))
    else data in
  if (length data mod 4 =? 1)%nat then None
  else
    match sextets data with
    | Some vs => Some (string_of_list_ascii (octets vs))
    | None => None
    end.

End Base64.

(** ** Reference values for closed examples *)

Module Reference.
Import Client.

(** [s.trim() === ''] on 8-bit text: only tab, line feed, vertical tab,
    form feed, carriage return, space and the no-break space. *)
Definition trims_to_empty (s : string) : bool :=
  forallb
    (fun c => let n := N_of_ascii c in
              ((9 <=? n)%N && (n <=? 13)%N) || (n =? 32)%N || (n =? 160)%N)
    (list_ascii_of_string s).

(** The page while recording: the state [websocket.onopen] leaves, with
    the playback context [audioPlayer.start()] created, a 48 kHz capture
    context, and no message received yet. *)
Definition recording : Client :=
  {| isRecording := true;
     audioPlayer := {| audioContext := Some ctx_running; rawAudioChunks := [] |};
     decoding := [];
     started := [];
     chatStatus := mkStatus "Connected. Recording..." false;
     chatHistory := [InitialMessage];
     recordButton := btn_recording;
     scriptNode := true;
     mediaStreamSource := true;
     visualizer := true;
     readyState := OPEN;
     sampleRate := 48000%float;
     sent := [];
     timers := 0 |}.

Definition dispatch := Client.dispatch Base64.atob trims_to_empty.
Definition run := Client.run Base64.atob trims_to_empty.

End Reference.

(** ** Scenarios

    Event sequences, predicates on the page, and the page as the script
    leaves it once loaded, for the properties below. *)

Module Scenarios.
Import Num Client Session.

(** The messages of one utterance: the start marker, its chunks in
    order, the end marker. *)
Definition utterance (payloads : list string) : list Event :=
  [Message audio_stream_start] ++ chunk_events payloads
  ++ [Message audio_stream_end].

Definition transcription (text : string) : MessageData :=
  Json (mkMessage "transcription" (Some text) None None).

Definition llm_response_text (text : string) : MessageData :=
  Json (mkMessage "llm_response_text" (Some text) None None).

(** A node of the chat log that is a bubble of character data. *)
Definition is_bubble (n : ChatNode) : Prop :=
  match n with
  | Bubble _ _ => True
  | _ => False
  end.

(** A node of a followed log that is not an assistant bubble: the initial
    message or a user bubble. *)
Definition not_assistant (n : ChatNode) : Prop :=
  match n with
  | InitialMessage | Bubble user _ => True
  | _ => False
  end.

(** The three keys [checkRequiredKeys] asks for are all set. *)
Definition required_keys_set (k : ApiKeys) : bool :=
  truthy (gemini k) && truthy (assemblyai k) && truthy (murf k).

(** A channel record that is empty or opens with the configuration. *)
Definition config_first (w : list Wire) : Prop :=
  match w with
  | [] => True
  | first :: _ => exists keys, first = ConfigMessage keys
  end.

(** The variables of the script before its last three statements: not
    recording, a player without context, no channel yet (counted as
    closed), nothing scheduled. *)
Definition blank : Client :=
  {| isRecording := false;
     audioPlayer := {| audioContext := None; rawAudioChunks := [] |};
     decoding := [];
     started := [];
     chatStatus := mkStatus "" false;
     chatHistory := [];
     recordButton := btn_idle;
     scriptNode := false;
     mediaStreamSource := false;
     visualizer := false;
     readyState := CLOSED;
     sampleRate := 48000%float;
     sent := [];
     timers := 0 |}.

(** The page once loaded with the stored keys [keys]:
    [initializeSession()] and [updateRecordButton('idle')] have run. *)
Definition loaded (keys : ApiKeys) (uuid : string) : Page :=
  let p := initializeSession uuid (mkPage blank keys true None 0 [] 0) in
  set_client (updateRecordButton btn_idle (client p)) p.

(** Keys with the three required ones set. *)
Definition demo_keys : ApiKeys :=
  mkKeys (Some "g-key"%string) (Some "a-key"%string) (Some "m-key"%string)
    None None.

(** No key stored: the object the script starts with. *)
Definition no_keys : ApiKeys := mkKeys None None None None None.

End Scenarios.

(** * Properties *)

(** ** Loops and bytes *)

Lemma for_upto_S {A : Type} (n : nat) (body : nat -> A -> A) (a : A) :
  for_upto (S n) body a = body n (for_upto n body a).
Proof.
  unfold for_upto. rewrite seq_S, fold_left_app. reflexivity.
Qed.

(** A loop that stores [f i] at index [i] of an array of length [n]
    builds the array of the [f i]. *)
Lemma for_upto_store {A : Type} (f : nat -> A) (d : A) (n k : nat) :
  (k <= n)%nat ->
  for_upto k (fun i arr => <[i := f i]> arr) (replicate n d)
  = map f (seq 0 k) ++ replicate (n - k) d.
Proof.
  induction k as [|k IH]; intros Hk.
  - simpl. now rewrite Nat.sub_0_r.
  - rewrite for_upto_S, IH by lia.
    rewrite seq_S, map_app, <- app_assoc. simpl.
    replace (n - k)%nat with (S (n - S k)) by lia. simpl.
    rewrite insert_app_r_alt by (rewrite length_map, length_seq; lia).
    rewrite length_map, length_seq, Nat.sub_diag. reflexivity.
Qed.

Lemma for_upto_store_all {A : Type} (f : nat -> A) (d : A) (n : nat) :
  for_upto n (fun i arr => <[i := f i]> arr) (replicate n d) = map f (seq 0 n).
Proof.
  rewrite for_upto_store by lia. now rewrite Nat.sub_diag, app_nil_r.
Qed.


Module BytesFacts.
Import Bytes.

Lemma ToUint8_to_Z (z : Z) : byte_to_Z (ToUint8 z) = z mod 256.
Proof.
  unfold ToUint8, byte_to_Z.
  pose proof (Z.mod_pos_bound z 256 ltac:(lia)) as Hb.
  destruct (Byte.of_N (Z.to_N (z mod 256))) as [b|] eqn:E.
  - apply Byte.to_of_N in E. rewrite E. lia.
  - apply Byte.of_N_None_iff in E. lia.
Qed.

Lemma ToUint8_mod (z : Z) : ToUint8 (z mod 256) = ToUint8 z.
Proof. unfold ToUint8. now rewrite Z.mod_mod by lia. Qed.

(** The bytes of a 32-bit field only depend on the value modulo 2^32. *)
Lemma ToUint8_div_mod32 (v k : Z) :
  0 <= k <= 24 -> ToUint8 ((v mod 2 ^ 32) / 2 ^ k) = ToUint8 (v / 2 ^ k).
Proof.
  intros Hk. rewrite <- (ToUint8_mod (_ / _)), <- (ToUint8_mod (v / _)).
  f_equal. change 256 with (2 ^ 8).
  rewrite <- !Z.shiftr_div_pow2 by lia.
  rewrite <- !Z.land_ones by lia.
  apply Z.bits_inj'. intros i Hi.
  rewrite !Z.land_spec, !Z.shiftr_spec, Z.land_spec by lia.
  destruct (Z.ltb_spec i 8).
  - rewrite (Z.ones_spec_low 32 (i + k)) by lia. now rewrite andb_true_r.
  - rewrite (Z.ones_spec_high 8 i) by lia. now rewrite !andb_false_r.
Qed.

Lemma ToUint8_mod32 (v : Z) : ToUint8 (v mod 2 ^ 32) = ToUint8 v.
Proof.
  pose proof (ToUint8_div_mod32 v 0 ltac:(lia)) as H.
  now rewrite !Z.pow_0_r, !Z.div_1_r in H.
Qed.

(** Reading back four little-endian bytes gives the value modulo 2^32. *)
Lemma le32_value (v : Z) :
  v mod 256 + 2 ^ 8 * ((v / 2 ^ 8) mod 256) + 2 ^ 16 * ((v / 2 ^ 16) mod 256)
  + 2 ^ 24 * ((v / 2 ^ 24) mod 256) = v mod 2 ^ 32.
Proof.
  change (2 ^ 32) with (256 * (256 * (256 * 256))).
  rewrite !Z.rem_mul_r by lia.
  rewrite !Z.div_div by lia.
  change (2 ^ 8) with 256. change (2 ^ 16) with (256 * 256).
  change (2 ^ 24) with (256 * 256 * 256). lia.
Qed.

Lemma le16_value (v : Z) :
  v mod 256 + 2 ^ 8 * ((v / 2 ^ 8) mod 256) = v mod 2 ^ 16.
Proof.
  change (2 ^ 16) with (256 * 256).
  rewrite Z.rem_mul_r by lia. reflexivity.
Qed.

(** A character code stored into a byte array is the character's byte. *)
Lemma ToUint8_charCode (c : ascii) :
  ToUint8 (Z.of_N (N_of_ascii c)) = byte_of_ascii c.
Proof.
  destruct c as [[] [] [] [] [] [] [] []]; reflexivity.
Qed.

End BytesFacts.

(** ** The container builder *)

Module WavFacts.
Import Bytes Wav BytesFacts.

(** The buffer [createWavBuffer] returns is the header of the layout
    table followed by the payload. *)
Lemma createWavBuffer_eq (pcmData : buffer) :
  createWavBuffer pcmData = wav_header (length pcmData) ++ pcmData.
Proof.
  unfold createWavBuffer, wav_header, new_buffer.
  set (n := length pcmData).
  change (replicate (44 + n) x00) with (replicate 44 x00 ++ replicate n x00).
  cbv [writeString for_upto setUint32_le setUint16_le setUint8
       String.length seq fold_left].
  cbn [replicate app list_insert insert Nat.add take drop].
  unfold typed_set. cbn [take app Nat.add]. fold n.
  rewrite !drop_0.
  rewrite drop_ge by (rewrite length_replicate; subst n; simpl; lia).
  rewrite app_nil_r.
  rewrite !ToUint8_mod32, !ToUint8_div_mod32 by lia.
  reflexivity.
Qed.

Lemma wav_header_length (n : nat) : length (wav_header n) = 44%nat.
Proof. reflexivity. Qed.

Lemma getUint32_le_header (n : nat) (rest : buffer) (off : nat) (v : Z) :
  take 4 (drop off (wav_header n)) = le32 v ->
  getUint32_le (wav_header n ++ rest) off = v mod 2 ^ 32.
Proof.
  intros H. rewrite <- le32_value.
  assert (Hl : forall i, (i < 4)%nat ->
             (wav_header n ++ rest) !! (off + i)%nat = le32 v !! i).
  { intros i Hi. rewrite <- H, lookup_take_lt, lookup_drop by lia.
    assert (Hlen : (4 <= length (take 4 (drop off (wav_header n))))%nat)
      by now rewrite H.
    rewrite length_take, length_drop, wav_header_length in Hlen.
    apply lookup_app_l. rewrite wav_header_length. lia. }
  unfold getUint32_le, getUint8.
  rewrite <- (Nat.add_0_r off) at 1.
  rewrite !Hl by lia. cbn [le32 lookup list_lookup].
  now rewrite !ToUint8_to_Z.
Qed.

(** C2. For every PCM payload of [N] bytes, [createWavBuffer] returns
    [44 + N] bytes: the 44-byte header of the layout table (bytes 0-3
    "RIFF", 4-7 the little-endian bytes of 36+N, 8-11 "WAVE", 12-15
    "fmt ", 16-19 the value 16, 20-21 format tag 1, 22-23 channel count 1,
    24-27 sample rate 44100, 28-31 byte rate 88200 = 44100 * 2, 32-33
    block align 2, 34-35 bits per sample 16, 36-39 "data", 40-43 the
    little-endian bytes of N) followed by the payload unchanged; read back
    as 32-bit fields, bytes 4-7 and 40-43 hold 36+N and N modulo 2^32; for
    the empty payload the length is 44 and the data size field is 0. *)
Theorem createWavBuffer_layout (pcmData : buffer) :
  let N := length pcmData in
  let out := createWavBuffer pcmData in
  length out = (44 + N)%nat
  /\ take 4 out = string_bytes "RIFF"
  /\ take 4 (drop 4 out) = le32 (36 + Z.of_nat N)
  /\ getUint32_le out 4 = (36 + Z.of_nat N) mod 2 ^ 32
  /\ take 4 (drop 8 out) = string_bytes "WAVE"
  /\ take 4 (drop 12 out) = string_bytes "fmt "
  /\ getUint32_le out 16 = 16
  /\ getUint16_le out 20 = 1
  /\ getUint16_le out 22 = 1
  /\ getUint32_le out 24 = 44100
  /\ getUint32_le out 28 = 88200 /\ 88200 = 44100 * 2
  /\ getUint16_le out 32 = 2
  /\ getUint16_le out 34 = 16
  /\ take 4 (drop 36 out) = string_bytes "data"
  /\ take 4 (drop 40 out) = le32 (Z.of_nat N)
  /\ getUint32_le out 40 = Z.of_nat N mod 2 ^ 32
  /\ drop 44 out = pcmData
  /\ length (createWavBuffer []) = 44%nat
  /\ getUint32_le (createWavBuffer []) 40 = 0.
Proof.
  intros N out. subst out. rewrite !createWavBuffer_eq. fold N.
  repeat split; try reflexivity; now apply getUint32_le_header.
Qed.

End WavFacts.

(** ** Numbers: rounding and the clamp *)

Module NumFacts.
Import Num.

Lemma digits2_pos_size (p : positive) : digits2_pos p = Pos.size p.
Proof. induction p; simpl; congruence. Qed.

(** [2^(d-1) <= p < 2^d] for [d] the number of binary digits of [p]. *)
Lemma digits2_pos_bounds (p : positive) :
  2 ^ (Zpos (digits2_pos p) - 1) <= Zpos p < 2 ^ Zpos (digits2_pos p).
Proof.
  induction p as [p IH|p IH|]; cbn [digits2_pos].
  - rewrite Pos2Z.inj_succ.
    replace (Z.succ (Zpos (digits2_pos p)) - 1) with (Zpos (digits2_pos p)) by lia.
    rewrite Z.pow_succ_r by lia.
    replace (Zpos (digits2_pos p)) with (Z.succ (Zpos (digits2_pos p) - 1)) at 1 by lia.
    rewrite Z.pow_succ_r by lia. lia.
  - rewrite Pos2Z.inj_succ.
    replace (Z.succ (Zpos (digits2_pos p)) - 1) with (Zpos (digits2_pos p)) by lia.
    rewrite Z.pow_succ_r by lia.
    replace (Zpos (digits2_pos p)) with (Z.succ (Zpos (digits2_pos p) - 1)) at 1 by lia.
    rewrite Z.pow_succ_r by lia. lia.
  - simpl. lia.
Qed.

Lemma iter_pos_nat {A : Type} (f : A -> A) (p : positive) (x : A) :
  SpecFloat.iter_pos f p x = Nat.iter (Pos.to_nat p) f x.
Proof.
  revert x. induction p as [p IH|p IH|]; intros x; cbn [SpecFloat.iter_pos].
  - rewrite !IH, Pos2Nat.inj_xI.
    replace (S (2 * Pos.to_nat p)) with (Pos.to_nat p + (Pos.to_nat p + 1))%nat by lia.
    rewrite !Nat.iter_add. reflexivity.
  - rewrite !IH, Pos2Nat.inj_xO.
    replace (2 * Pos.to_nat p)%nat with (Pos.to_nat p + Pos.to_nat p)%nat by lia.
    rewrite Nat.iter_add. reflexivity.
  - reflexivity.
Qed.

Lemma shr_1_spec (mrs : shr_record) :
  0 <= shr_m mrs ->
  shr_m (shr_1 mrs) = shr_m mrs / 2
  /\ inexact (shr_1 mrs) = inexact mrs || Z.odd (shr_m mrs).
Proof.
  destruct mrs as [m r s]. cbn [shr_m]. intros Hm.
  destruct m as [|[p|p|]|p]; try lia; cbn [shr_1 shr_m inexact shr_r shr_s].
  - split; [reflexivity|]. now rewrite orb_false_r.
  - split.
    + rewrite Pos2Z.inj_xI. apply (Z.div_unique _ _ _ 1); lia.
    + cbn. now rewrite orb_true_r.
  - split.
    + rewrite Pos2Z.inj_xO. apply (Z.div_unique _ _ _ 0); lia.
    + cbn. now rewrite orb_false_r.
  - split; [reflexivity|]. cbn. now rewrite orb_true_r.
Qed.

Lemma shr_iter_spec (n : nat) (mrs : shr_record) :
  0 <= shr_m mrs ->
  shr_m (Nat.iter n shr_1 mrs) = shr_m mrs / 2 ^ Z.of_nat n
  /\ (inexact (Nat.iter n shr_1 mrs) = true ->
      inexact mrs = true \/ shr_m mrs mod 2 ^ Z.of_nat n <> 0).
Proof.
  intros Hm. induction n as [|n [IHm IHi]].
  - change (Nat.iter 0 shr_1 mrs) with mrs.
    rewrite Z.pow_0_r, Z.div_1_r. auto.
  - rewrite Nat.iter_succ.
    assert (H0 : 0 <= shr_m (Nat.iter n shr_1 mrs)).
    { rewrite IHm. apply Z.div_pos; lia. }
    destruct (shr_1_spec _ H0) as [Em Ei].
    rewrite Em, Ei, IHm. rewrite Nat2Z.inj_succ, Z.pow_succ_r by lia.
    split.
    + rewrite Z.div_div by lia. f_equal. lia.
    + intros H. apply orb_true_iff in H. destruct H as [H|H].
      * destruct (IHi H) as [H'|H']; [now left|right].
        intros Hz. apply H'.
        pose proof (Z.rem_mul_r (shr_m mrs) (2 ^ Z.of_nat n) 2 ltac:(lia) ltac:(lia)) as R.
        rewrite (Z.mul_comm 2) in Hz. rewrite R in Hz.
        pose proof (Z.mod_pos_bound (shr_m mrs) (2 ^ Z.of_nat n) ltac:(lia)).
        pose proof (Z.mod_pos_bound (shr_m mrs / 2 ^ Z.of_nat n) 2 ltac:(lia)).
        nia.
      * right. intros Hz.
        pose proof (Z.rem_mul_r (shr_m mrs) (2 ^ Z.of_nat n) 2 ltac:(lia) ltac:(lia)) as R.
        rewrite (Z.mul_comm 2) in Hz. rewrite R in Hz.
        rewrite <- Z.bit0_odd in H.
        pose proof (Z.bit0_mod (shr_m mrs / 2 ^ Z.of_nat n)) as Hb.
        rewrite H in Hb. cbn [Z.b2z] in Hb.
        pose proof (Z.mod_pos_bound (shr_m mrs) (2 ^ Z.of_nat n) ltac:(lia)).
        nia.
Qed.

Lemma round_nearest_even_spec (m : Z) (mrs : shr_record) :
  let r := round_nearest_even m (loc_of_shr_record mrs) in
  m <= r <= m + 1 /\ (inexact mrs = false -> r = m).
Proof.
  destruct mrs as [m' [] []]; cbn; try destruct (Z.even m); split; try lia;
    intros; try discriminate; reflexivity.
Qed.

(** The first step of rounding an exact mantissa: the shift count, and
    what is left after the shift. *)
Lemma shr_fexp_exact (p e : Z) (M ex : Z) :
  0 <= M ->
  let n := Z.max 0 (fexp p e (Zdigits2 M + ex) - ex) in
  shr_m (fst (shr_fexp p e M ex loc_Exact)) = M / 2 ^ n
  /\ snd (shr_fexp p e M ex loc_Exact) = ex + n
  /\ (inexact (fst (shr_fexp p e M ex loc_Exact)) = true -> M mod 2 ^ n <> 0).
Proof.
  intros HM n. subst n. unfold shr_fexp, shr. cbn [shr_record_of_loc].
  destruct (fexp p e (Zdigits2 M + ex) - ex) as [|k|k].
  - cbn. rewrite Z.div_1_r. repeat split; [lia|discriminate].
  - cbn [fst snd]. rewrite iter_pos_nat.
    rewrite Z.max_r by lia.
    destruct (shr_iter_spec (Pos.to_nat k) (Build_shr_record M false false) HM)
      as [Hm Hi].
    cbn [shr_m] in Hm, Hi. rewrite positive_nat_Z in Hm, Hi.
    repeat split; [exact Hm|].
    intros H. destruct (Hi H) as [H'|H']; [discriminate|exact H'].
  - cbn. rewrite Z.div_1_r. repeat split; [lia|discriminate].
Qed.

(** Rounding a product whose exact value is at most the integer [B]
    gives a number whose integer part is at most [B]. *)
Lemma binary_round_aux_le (sx : bool) (M : positive) (ex B : Z) :
  ex <= 0 -> 0 <= B < 2 ^ 53 ->
  Zpos M <= B * 2 ^ (- ex) ->
  match binary_round_aux prec emax sx (Zpos M) ex loc_Exact with
  | S754_finite s m e => s = sx /\ Z.shiftl (Zpos m) e <= B
  | S754_zero s => s = sx
  | S754_infinity s => s = sx
  | S754_nan => False
  end.
Proof.
  intros Hex HB HM. unfold binary_round_aux.
  destruct (shr_fexp_exact prec emax (Zpos M) ex ltac:(lia)) as (E1 & E2 & E3).
  destruct (shr_fexp prec emax (Zpos M) ex loc_Exact) as [mrs1 e1].
  cbn [fst snd] in E1, E2, E3.
  set (n1 := Z.max 0 (fexp prec emax (Zdigits2 (Zpos M) + ex) - ex)) in *.
  destruct (round_nearest_even_spec (shr_m mrs1) mrs1) as [R1 R2].
  set (m1 := round_nearest_even (shr_m mrs1) (loc_of_shr_record mrs1)) in *.
  (* the exponent after the first shift is not positive *)
  pose proof (digits2_pos_bounds M) as HdM.
  assert (Hn1 : 0 <= n1 <= - ex).
  { subst n1. unfold fexp, SpecFloat.emin, prec, emax. cbn [Zdigits2].
    assert (Hd : Zpos (digits2_pos M) - 1 < 53 - ex).
    { apply (Z.pow_lt_mono_r_iff 2); [lia|lia|].
      eapply Z.le_lt_trans; [apply HdM|].
      eapply Z.le_lt_trans; [apply HM|].
      replace (53 - ex) with (53 + - ex) by lia.
      rewrite Z.pow_add_r by lia. nia. }
    lia. }
  (* the rounded mantissa is at most B scaled to the new exponent *)
  set (T := B * 2 ^ (- ex - n1)).
  assert (HT : Zpos M <= T * 2 ^ n1).
  { subst T. rewrite <- Z.mul_assoc, <- Z.pow_add_r by lia.
    replace (- ex - n1 + n1) with (- ex) by lia. exact HM. }
  assert (Hp1 : 0 < 2 ^ n1) by (apply Z.pow_pos_nonneg; lia).
  assert (Hm1 : 0 <= m1 <= T).
  { assert (Hq : 0 <= shr_m mrs1 <= T).
    { rewrite E1. split; [apply Z.div_pos; lia|].
      apply Z.div_le_upper_bound; lia. }
    destruct (Z.eq_dec (shr_m mrs1) T) as [Heq|Hne]; [|lia].
    destruct (inexact mrs1) eqn:Hi.
    - exfalso. apply (E3 eq_refl).
      assert (Zpos M = T * 2 ^ n1).
      { pose proof (Z.mul_div_le (Zpos M) (2 ^ n1) Hp1). rewrite <- E1, Heq in H. lia. }
      rewrite H. apply Z.mod_mul. lia.
    - rewrite (R2 eq_refl). lia. }
  clearbody m1. clear R1 R2 E1 E3.
  destruct (shr_fexp_exact prec emax m1 e1 ltac:(lia)) as (F1 & F2 & _).
  destruct (shr_fexp prec emax m1 e1 loc_Exact) as [mrs2 e2].
  cbn [fst snd] in F1, F2.
  set (n2 := Z.max 0 (fexp prec emax (Zdigits2 m1 + e1) - e1)) in *.
  assert (Hn2 : 0 <= n2) by (subst n2; lia).
  assert (Hp2 : 0 < 2 ^ n2) by (apply Z.pow_pos_nonneg; lia).
  destruct (shr_m mrs2) as [|m2|m2] eqn:Em2.
  - reflexivity.
  - destruct (e2 <=? emax - prec); [|reflexivity].
    split; [reflexivity|].
    assert (Hm2 : Zpos m2 * 2 ^ n2 <= T).
    { rewrite F1. rewrite Z.mul_comm.
      pose proof (Z.mul_div_le m1 (2 ^ n2) Hp2). lia. }
    (* e2 = ex + n1 + n2 *)
    destruct (Z.le_gt_cases 0 e2) as [He2|He2].
    + rewrite Z.shiftl_mul_pow2 by lia.
      assert (Zpos m2 * 2 ^ e2 * 2 ^ (- ex - n1) <= B * 2 ^ (- ex - n1)).
      { replace (Zpos m2 * 2 ^ e2 * 2 ^ (- ex - n1)) with (Zpos m2 * 2 ^ n2).
        - exact Hm2.
        - rewrite <- Z.mul_assoc, <- Z.pow_add_r by lia. do 2 f_equal. lia. }
      assert (0 < 2 ^ (- ex - n1)) by (apply Z.pow_pos_nonneg; lia).
      nia.
    + rewrite <- (Z.opp_involutive e2) at 1.
      rewrite Z.shiftl_opp_r, Z.shiftr_div_pow2 by lia.
      apply Z.div_le_upper_bound; [apply Z.pow_pos_nonneg; lia|].
      assert (Zpos m2 * 2 ^ n2 <= B * 2 ^ (- e2) * 2 ^ n2).
      { rewrite <- Z.mul_assoc, <- Z.pow_add_r by lia.
        replace (- e2 + n2) with (- ex - n1) by lia. exact Hm2. }
      nia.
  - exfalso.
    assert (0 <= m1 / 2 ^ n2) by (apply Z.div_pos; lia). lia.
Qed.

Lemma compare_cont_Eq (p q : positive) :
  PosDef.Pos.compare_cont Eq p q = Pos.compare p q.
Proof. reflexivity. Qed.

Lemma valid_mantissa_bound (s : bool) (m : positive) (e : Z) :
  valid_binary (S754_finite s m e) = true -> Zpos m < 2 ^ 53.
Proof.
  cbn [SpecFloat.valid_binary]. unfold bounded, canonical_mantissa, fexp.
  intros H. apply andb_true_iff in H. destruct H as [H _].
  apply Z.eqb_eq in H.
  pose proof (digits2_pos_bounds m) as [_ Hd].
  eapply Z.lt_le_trans; [exact Hd|].
  apply Z.pow_le_mono_r; [lia|]. unfold prec in H. lia.
Qed.

Lemma Prim2SF_one : Prim2SF 1 = S754_finite false 4503599627370496 (-52).
Proof. reflexivity. Qed.

Lemma Prim2SF_minus_one : Prim2SF (-1) = S754_finite true 4503599627370496 (-52).
Proof. reflexivity. Qed.

(** A valid finite number that is neither above 1 nor below -1 has
    magnitude [m * 2^e] at most 1. *)
Lemma unit_range_mantissa (x : float) (s : bool) (m : positive) (e : Z) :
  Prim2SF x = S754_finite s m e ->
  (1 <? x)%float = false -> (x <? -1)%float = false ->
  e <= -52 /\ Zpos m <= 2 ^ (- e).
Proof.
  intros Hx H1 H2.
  pose proof (Prim2SF_valid x) as Hv. rewrite Hx in Hv.
  apply valid_mantissa_bound in Hv.
  rewrite FloatAxioms.ltb_spec, Hx in H1, H2.
  rewrite Prim2SF_one in H1. rewrite Prim2SF_minus_one in H2.
  cbn [SFltb SFcompare] in H1, H2.
  rewrite compare_cont_Eq in H1, H2.
  remember 4503599627370496%positive as K eqn:HK.
  assert (HK' : Zpos K = 2 ^ 52) by (subst K; reflexivity).
  clear HK.
  assert (Hcase : e < -52 \/ (e = -52 /\ Zpos m <= 2 ^ 52)).
  { destruct s.
    - destruct (Z.compare_spec e (-52)) as [He|He|He]; try discriminate; [|lia].
      right. split; [exact He|].
      destruct (Pos.compare m K) eqn:E; try discriminate.
      + apply Pos.compare_eq in E. subst m. lia.
      + assert (Hlt : (m < K)%positive) by exact E. lia.
    - destruct (Z.compare_spec (-52) e) as [He|He|He]; try discriminate; [|lia].
      right. split; [lia|].
      destruct (Pos.compare K m) eqn:E; try discriminate.
      + apply Pos.compare_eq in E. subst m. lia.
      + assert (Hlt : (m < K)%positive) by (apply Pos.gt_lt; exact E). lia. }
  destruct Hcase as [He|[He Hm]].
  - split; [lia|]. eapply Z.le_trans; [apply Z.lt_le_incl, Hv|].
    apply Z.pow_le_mono_r; lia.
  - subst e. split; [lia|]. exact Hm.
Qed.

Lemma wrap16_small (z : Z) : -32768 <= z <= 32767 -> wrap16 z = z.
Proof.
  intros Hz. unfold wrap16. change (2 ^ 16) with 65536. change (2 ^ 15) with 32768.
  destruct (Z.ltb_spec (z mod 65536) 32768) as [H|H];
    pose proof (Z.mod_pos_bound z 65536 ltac:(lia));
    pose proof (Z.div_mod z 65536 ltac:(lia)); lia.
Qed.

Lemma SFltb_asym (a b : spec_float) : SFltb a b = true -> SFltb b a = false.
Proof.
  unfold SFltb, SFcompare.
  destruct a as [[]|[]| |[] m1 e1], b as [[]|[]| |[] m2 e2];
    intros H; try reflexivity; try discriminate; revert H;
    rewrite (Z.compare_antisym e1 e2), (compare_cont_Eq m1 m2),
      (compare_cont_Eq m2 m1), (Pos.compare_antisym m1 m2);
    destruct (e1 ?= e2), (m1 ?= m2)%positive; cbn;
    intros H; try reflexivity; discriminate.
Qed.

(** A number below -1 is not above 1. *)
Lemma below_not_above (x : float) :
  (x <? -1)%float = true -> (1 <? x)%float = false.
Proof.
  rewrite !FloatAxioms.ltb_spec, Prim2SF_one, Prim2SF_minus_one.
  generalize 4503599627370496%positive. intros K.
  unfold SFltb, SFcompare.
  destruct (Prim2SF x) as [[]|[]| |[] m e]; intros H;
    try reflexivity; discriminate.
Qed.

Lemma is_nan_spec (x : float) :
  is_nan x = match Prim2SF x with S754_nan => true | _ => false end.
Proof.
  unfold is_nan. rewrite FloatAxioms.eqb_spec. unfold SFeqb, SFcompare.
  pose proof (Prim2SF_valid x) as Hv.
  destruct (Prim2SF x) as [[]|[]|  |[] m e]; try reflexivity.
  - rewrite Z.compare_refl.
    rewrite compare_cont_Eq.
    now rewrite Pos.compare_refl.
  - rewrite Z.compare_refl.
    rewrite compare_cont_Eq.
    now rewrite Pos.compare_refl.
Qed.

Section Clamp.
Local Open Scope float_scope.


(** The clamp [Math.max(-1, Math.min(1, x))]. *)
Lemma clamp_cases (x : float) :
  let s := Math_max (-1) (Math_min 1 x) in
  (is_nan x = true /\ s = nan)
  \/ (is_nan x = false /\ (1 <? x) = true /\ s = 1)
  \/ (is_nan x = false /\ (x <? -1) = true /\ s = -1)
  \/ (is_nan x = false /\ (1 <? x) = false /\ (x <? -1) = false /\ s = x).
Proof.
  intros s. subst s. unfold Math_min.
  change (is_nan 1) with false. cbn [orb].
  destruct (is_nan x) eqn:Hn; [left; split; reflexivity|right].
  change (get_sign 1) with false.
  destruct (1 <? x) eqn:H1.
  - left. repeat split. 
  - right.
    match goal with
    | |- context [Math_max _ ?t] =>
        assert (Hmin : t = x) by (now destruct (x <? 1)); rewrite Hmin
    end.
    unfold Math_max.
    change (is_nan (-1)) with false. rewrite Hn. cbn [orb].
    change (get_sign (-1)) with true.
    destruct (x <? -1) eqn:H2.
    + left. repeat split.
      destruct (-1 <? x) eqn:H3; [|reflexivity].
      exfalso. rewrite FloatAxioms.ltb_spec in H2, H3.
      apply SFltb_asym in H2. congruence.
    + right. repeat split. now destruct (-1 <? x).
Qed.

Lemma Prim2SF_32768 : Prim2SF 32768 = S754_finite false 4503599627370496 (-37).
Proof. reflexivity. Qed.

Lemma Prim2SF_32767 : Prim2SF 32767 = S754_finite false 9006924376834048 (-38).
Proof. reflexivity. Qed.

Lemma Prim2SF_zero : Prim2SF 0 = S754_zero false.
Proof. reflexivity. Qed.

(** A clamped sample, scaled, has its integer part in the signed 16-bit
    range. *)
Lemma scaled_in_range (x : float) :
  is_nan x = false -> (1 <? x) = false -> (x <? -1) = false ->
  (-32768
   <= truncate (if x <? 0 then x * 32768 else x * 32767)%float
   <= 32767)%Z.
Proof.
  intros Hn H1 H2.
  rewrite is_nan_spec in Hn.
  assert (Hlt : (x <? 0) = match Prim2SF x with
                           | S754_finite s _ _ => s
                           | S754_infinity s => s
                           | _ => false
                           end).
  { rewrite FloatAxioms.ltb_spec, Prim2SF_zero. unfold SFltb, SFcompare.
    destruct (Prim2SF x) as [[]|[]| |[] m e]; reflexivity. }
  destruct (Prim2SF x) as [b|b| |s m e] eqn:Hx; try discriminate.
  - rewrite Hlt. unfold truncate.
    rewrite FloatAxioms.mul_spec, Hx, Prim2SF_32767. cbn. lia.
  - exfalso. rewrite FloatAxioms.ltb_spec, Hx in H1, H2.
    rewrite Prim2SF_one in H1. rewrite Prim2SF_minus_one in H2.
    destruct b; discriminate.
  - destruct (unit_range_mantissa x s m e Hx H1 H2) as [He Hm].
    rewrite Hlt. unfold truncate.
    assert (Hp : (0 < 2 ^ (- e))%Z) by (apply Z.pow_pos_nonneg; lia).
    destruct s.
    + rewrite FloatAxioms.mul_spec, Hx, Prim2SF_32768. unfold SF64mul, SFmul.
      pose proof (binary_round_aux_le (xorb true false)
                    (m * 4503599627370496) (e + -37) 32768) as Hb.
      destruct (binary_round_aux prec emax (xorb true false)
                  (Z.pos (m * 4503599627370496)) (e + -37) loc_Exact)
        as [b|b| |s' m' e'].
      1-3: lia.
      destruct Hb as [-> Hb].
      * lia.
      * lia.
      * rewrite Pos2Z.inj_mul.
        replace (- (e + -37))%Z with (37 + - e)%Z by lia.
        rewrite Z.pow_add_r by lia.
        change (2 ^ 37)%Z with 137438953472%Z. lia.
      * unfold truncZ. cbn [cond_Zopp xorb].
        pose proof (Z.shiftl_nonneg (Zpos m') e'). lia.
    + rewrite FloatAxioms.mul_spec, Hx, Prim2SF_32767. unfold SF64mul, SFmul.
      pose proof (binary_round_aux_le (xorb false false)
                    (m * 9006924376834048) (e + -38) 32767) as Hb.
      destruct (binary_round_aux prec emax (xorb false false)
                  (Z.pos (m * 9006924376834048)) (e + -38) loc_Exact)
        as [b|b| |s' m' e'].
      1-3: lia.
      destruct Hb as [-> Hb].
      * lia.
      * lia.
      * rewrite Pos2Z.inj_mul.
        replace (- (e + -38))%Z with (38 + - e)%Z by lia.
        rewrite Z.pow_add_r by lia.
        change (2 ^ 38)%Z with 274877906944%Z. lia.
      * unfold truncZ. cbn [cond_Zopp xorb].
        pose proof (Z.shiftl_nonneg (Zpos m') e'). lia.
Qed.

End Clamp.

End NumFacts.

(** ** The encoder and the resampler *)

Module AudioFacts.
Import Num Audio NumFacts.
Local Open Scope float_scope.

Lemma convertTo16BitPCM_map (input : list number) :
  convertTo16BitPCM input
  = map (fun i =>
           let s := Math_max (-1) (Math_min 1 (read input (Z.of_nat i))) in
           ToInt16 (if s <? 0 then s * 32768 else s * 32767))
      (seq 0 (length input)).
Proof. unfold convertTo16BitPCM. apply for_upto_store_all. Qed.

Lemma read_lookup (input : list number) (i : nat) (x : number) :
  input !! i = Some x -> read input (Z.of_nat i) = x.
Proof.
  intros H. unfold read.
  destruct (Z.ltb_spec (Z.of_nat i) 0); [lia|].
  now rewrite Nat2Z.id, H.
Qed.

(** C3. [convertTo16BitPCM] returns as many samples as it is given. The
    sample at index [i] comes from the input sample [x] there: [x] is
    clamped ([s] is 1 above 1, -1 below -1, [x] itself in between, so [s]
    is never below -1 nor above 1; a NaN stays NaN), [s] is scaled by
    32768 if negative and by 32767 otherwise, and the product is truncated
    to an integer, which the 16-bit store keeps as it is: it lies in
    [-32768, 32767]. The inputs 1, -1 and 0 give 32767, -32768 and 0. *)
Theorem convertTo16BitPCM_spec (input : list number) (i : nat) (x : number) :
  input !! i = Some x ->
  let output := convertTo16BitPCM input in
  let s := Math_max (-1) (Math_min 1 x) in
  let scaled := if s <? 0 then s * 32768 else s * 32767 in
  length output = length input
  /\ s = (if is_nan x then nan
          else if 1 <? x then 1 else if x <? -1 then -1 else x)
  /\ (s <? -1) = false /\ (1 <? s) = false
  /\ output !! i = Some (truncate scaled)
  /\ (-32768 <= truncate scaled <= 32767)%Z
  /\ convertTo16BitPCM [1] = [32767%Z]
  /\ convertTo16BitPCM [-1] = [(-32768)%Z]
  /\ convertTo16BitPCM [0] = [0%Z].
Proof.
  intros Hx output s scaled.
  assert (Hrange : (-32768 <= truncate scaled <= 32767)%Z
                   /\ (s <? -1) = false /\ (1 <? s) = false
                   /\ s = (if is_nan x then nan
                           else if 1 <? x then 1 else if x <? -1 then -1 else x)).
  { subst scaled.
    destruct (clamp_cases x) as [[Hn Hs]|[(Hn & H1 & Hs)|[(Hn & H2 & Hs)|(Hn & H1 & H2 & Hs)]]];
      fold s in Hs; rewrite Hs, Hn, ?H1, ?H2.
    - vm_compute. repeat split; discriminate.
    - vm_compute. repeat split; discriminate.
    - rewrite (below_not_above x H2).
      vm_compute. repeat split; discriminate.
    - repeat split; try assumption. 
      + apply scaled_in_range; assumption.
      + apply scaled_in_range; assumption. }
  destruct Hrange as (Hr & Hlo & Hhi & Hs).
  repeat split; try assumption; try reflexivity; try apply Hr.
  - subst output. rewrite convertTo16BitPCM_map. now rewrite length_map, length_seq.
  - subst output. rewrite convertTo16BitPCM_map.
    assert (Hi : (i < length input)%nat) by (eapply lookup_lt_Some; eauto).
    rewrite list_lookup_fmap, lookup_seq_lt by exact Hi. cbn.
    rewrite (read_lookup _ _ _ Hx). fold s. fold scaled.
    unfold ToInt16. now rewrite wrap16_small.
Qed.





(** C9. When the source rate equals the target rate ([===] on numbers),
    [resampleBuffer] returns its input unchanged. *)
Theorem resampleBuffer_identity (input : list number) (from to : number) :
  (from =? to) = true -> resampleBuffer input from to = Some input.
Proof. intros H. unfold resampleBuffer. now rewrite H. Qed.

(** *** Closed instances *)

(** The theorem of C3 at the second sample of [0.5, 2, -3]. *)
Lemma convertTo16BitPCM_spec_witness :
  convertTo16BitPCM [0.5; 2; -3] !! 1%nat = Some 32767%Z
  /\ Math_max (-1) (Math_min 1 2) = 1
  /\ truncate (1 * 32767) = 32767%Z.
Proof.
  destruct (convertTo16BitPCM_spec [0.5; 2; -3] 1 2 eq_refl)
    as (_ & H2 & _ & _ & H5 & _).
  exact (conj H5 (conj H2 eq_refl)).
Defined.


(** The resampler on the rates of common devices: a 4096-sample block at
    44.1 kHz or 48 kHz gives 1486 or 1365 samples at 16 kHz, and three to
    two interpolates halfway between neighbours. *)
Example resampleBuffer_lengths :
  ToIndex (Math_round (of_nat 4096 / (44100 / 16000))) = Some 1486%nat
  /\ ToIndex (Math_round (of_nat 4096 / (48000 / 16000))) = Some 1365%nat
  /\ resampleBuffer [0.5; 0.25; 0.125; 1; -1; 0.75] 24000 16000
     = Some [0.5; 0.1875; 1; -0.125].
Proof. vm_compute. repeat split. Qed.

(** The theorem of C9 at the target rate. *)
Lemma resampleBuffer_identity_witness :
  resampleBuffer [0.5; 0.25; -1] 16000 16000 = Some [0.5; 0.25; -1].
Proof. apply resampleBuffer_identity. reflexivity. Defined.

End AudioFacts.

(** ** Reassembly and playback *)

Module ClientFacts.
Import Bytes Wav Num Audio Client BytesFacts WavFacts.

#[local] Arguments createWavBuffer : simpl never.

(** The copy loop of [play()] lays the chunks out one after the other. *)
Lemma combine_loop (chunks : list buffer) (done : buffer) (room : nat) :
  room = fold_left (fun acc chunk => (acc + length chunk)%nat) chunks 0%nat ->
  fold_left
    (fun '(combined, offset) chunk =>
       (typed_set combined chunk offset, (offset + length chunk)%nat))
    chunks (done ++ new_buffer room, length done)
  = (done ++ concat chunks, length (done ++ concat chunks)).
Proof.
  revert done room. induction chunks as [|c chunks IH]; intros done room Hroom.
  - simpl in *. subst room. unfold new_buffer. simpl.
    now rewrite app_nil_r.
  - simpl in Hroom. cbn [fold_left concat].
    assert (Hsum : forall l a,
      fold_left (fun (acc : nat) (chunk : buffer) => (acc + length chunk)%nat) l a
      = (a + fold_left (fun (acc : nat) (chunk : buffer) => (acc + length chunk)%nat) l 0)%nat).
    { clear. induction l as [|x l IHl]; intros a; simpl; [lia|].
      rewrite (IHl (a + length x)%nat), (IHl (length x)). lia. }
    rewrite Hsum in Hroom.
    set (rest := fold_left (fun (acc : nat) (chunk : buffer) => (acc + length chunk)%nat)
                   chunks 0%nat) in *.
    assert (Hset : typed_set (done ++ new_buffer room) c (length done)
                   = (done ++ c) ++ new_buffer rest).
    { unfold typed_set, new_buffer.
      rewrite take_app_length, drop_app_ge by lia.
      rewrite drop_replicate, <- app_assoc. do 3 f_equal. lia. }
    rewrite Hset.
    replace (length done + length c)%nat with (length (done ++ c))
      by now rewrite length_app.
    rewrite (IH (done ++ c) rest eq_refl).
    now rewrite <- app_assoc.
Qed.

Lemma combine_concat (chunks : list buffer) : combine chunks = concat chunks.
Proof.
  unfold combine.
  pose proof (combine_loop chunks [] _ eq_refl) as H. simpl in H.
  now rewrite H.
Qed.

Lemma delete_last {A : Type} (l : list A) (x : A) :
  delete (length l) (l ++ [x]) = l.
Proof.
  induction l as [|y l IH]; [reflexivity|].
  simpl. f_equal. exact IH.
Qed.

Section Platform.
Variable atob : string -> option string.
Variable trims_to_empty : string -> bool.

Local Abbreviation dispatch := (Client.dispatch atob trims_to_empty).
Local Abbreviation run := (Client.run atob trims_to_empty).
Local Abbreviation decodes_to := (Client.decodes_to atob).

(** The byte array [base64ToArrayBuffer] builds holds the character codes
    of the decoded binary string. *)
Lemma base64ToArrayBuffer_bytes (a b : string) :
  atob a = Some b -> base64ToArrayBuffer atob a = Some (string_bytes b).
Proof.
  intros H. unfold base64ToArrayBuffer. rewrite H. f_equal.
  unfold new_buffer. rewrite for_upto_store_all.
  unfold string_bytes, charCodeAt. clear H.
  induction b as [|c b IH]; [reflexivity|].
  cbn [String.length seq map list_ascii_of_string String.get].
  rewrite ToUint8_charCode. f_equal.
  rewrite <- seq_shift, map_map. exact IH.
Qed.

Lemma run_app (evs1 evs2 : list Event) (st : Client) :
  run (evs1 ++ evs2) st = run evs2 (run evs1 st).
Proof. unfold Client.run. apply fold_left_app. Qed.

Lemma run_cons (ev : Event) (evs : list Event) (st : Client) :
  run (ev :: evs) st = run evs (dispatch ev st).
Proof. reflexivity. Qed.

(** A decodable chunk is queued and nothing else changes. *)
Lemma dispatch_chunk (audio_data : string) (decoded : buffer) (st : Client) :
  decodes_to audio_data decoded ->
  dispatch (Message (audio_chunk (Some audio_data))) st
  = set_audioPlayer (queueChunk decoded (audioPlayer st)) st.
Proof.
  intros [Hne (b & Hb & ->)].
  cbn. unfold handleAudioChunk. cbn.
  destruct (String.eqb_spec audio_data "") as [->|_]; [congruence|]. cbn.
  now rewrite (base64ToArrayBuffer_bytes _ _ Hb).
Qed.

(** A chunk without payload changes nothing. *)
Lemma dispatch_chunk_no_payload (st : Client) :
  dispatch (Message (audio_chunk None)) st = st
  /\ dispatch (Message (audio_chunk (Some ""%string))) st = st.
Proof. split; reflexivity. Qed.

Lemma dispatch_start (st : Client) :
  dispatch (Message audio_stream_start) st = handleAudioStreamStart st.
Proof. reflexivity. Qed.

Lemma dispatch_end (st : Client) :
  dispatch (Message audio_stream_end) st = handleAudioStreamEnd st.
Proof. reflexivity. Qed.

(** Decodable chunks are queued in arrival order behind what the buffer
    holds. *)
Lemma run_chunks (payloads : list string) (decoded : list buffer) (st : Client) :
  Forall2 decodes_to payloads decoded ->
  run (chunk_events payloads) st
  = set_audioPlayer
      {| audioContext := audioContext (audioPlayer st);
         rawAudioChunks := rawAudioChunks (audioPlayer st) ++ decoded |} st.
Proof.
  intros H. revert st. induction H as [|a d payloads decoded Hd _ IH]; intros st.
  - cbn. rewrite app_nil_r. now destruct st as [? [] ? ? ? ? ? ? ? ? ? ? ? ?].
  - cbn [chunk_events map]. rewrite run_cons, (dispatch_chunk _ _ _ Hd).
    fold (chunk_events payloads). rewrite IH. cbn.
    now rewrite <- app_assoc.
Qed.

(** What the stream-end handler hands to the decoder: nothing for an
    empty buffer, otherwise the container of the buffered bytes. *)
Lemma handleAudioStreamEnd_decoding (st : Client) :
  audioContext (audioPlayer st) <> None ->
  decoding (handleAudioStreamEnd st)
  = match rawAudioChunks (audioPlayer st) with
    | [] => decoding st
    | chunks => decoding st ++ [createWavBuffer (concat chunks)]
    end
  /\ audioPlayer (handleAudioStreamEnd st) = audioPlayer st
  /\ started (handleAudioStreamEnd st) = started st
  /\ chatStatus (handleAudioStreamEnd st)
     = mkStatus "Audio stream complete. Playing..." false.
Proof.
  intros Hctx. unfold handleAudioStreamEnd, play. cbn.
  destruct (rawAudioChunks (audioPlayer st)) as [|c cs] eqn:E; cbn.
  - tauto.
  - destruct (audioContext (audioPlayer st)) eqn:Ec; [|congruence].
    cbn. rewrite combine_concat, ?E. tauto.
Qed.

Lemma run_utterance (payloads : list string) (decoded : list buffer)
    (st : Client) :
  Forall2 decodes_to payloads decoded ->
  audioContext (audioPlayer st) <> None ->
  let st' := run ([Message audio_stream_start] ++ chunk_events payloads
                  ++ [Message audio_stream_end]) st in
  decoding st'
  = match rawAudioChunks (audioPlayer st) ++ decoded with
    | [] => decoding st
    | chunks => decoding st ++ [createWavBuffer (concat chunks)]
    end
  /\ rawAudioChunks (audioPlayer st') = rawAudioChunks (audioPlayer st) ++ decoded
  /\ audioContext (audioPlayer st') = audioContext (audioPlayer st)
  /\ started st' = started st
  /\ status_isError (chatStatus st') = false.
Proof.
  intros Hd Hctx st'. subst st'.
  rewrite run_app, run_app. cbn [Client.run fold_left].
  rewrite dispatch_start, dispatch_end.
  fold (run (chunk_events payloads) (handleAudioStreamStart st)).
  rewrite (run_chunks _ _ _ Hd).
  set (st1 := set_audioPlayer _ _).
  assert (Hctx1 : audioContext (audioPlayer st1) <> None) by exact Hctx.
  destruct (handleAudioStreamEnd_decoding st1 Hctx1) as (H1 & H2 & H3 & H4).
  rewrite H1, H2, H3, H4. subst st1. cbn. tauto.
Qed.

(** What the code does on the utterance of three chunks. From an empty
    Utterance Buffer, [audio_stream_start], three chunks carrying the
    payloads C1, C2, C3 in that order, then [audio_stream_end] hand the
    decoder one container whose PCM data section is C1 ++ C2 ++ C3 in
    exactly that order; the reset of the Utterance Buffer sits behind the
    [await], so the buffer still holds the three chunks while the decode
    is pending and is empty only once that decode has succeeded. A chunk
    with no payload is a no-op, and if no chunk arrived nothing is handed
    to the decoder and no error is reported. *)
Lemma reassembly_in_order (st : Client) (a1 a2 a3 : string)
    (C1 C2 C3 : buffer) :
  rawAudioChunks (audioPlayer st) = [] ->
  audioContext (audioPlayer st) <> None ->
  decodes_to a1 C1 -> decodes_to a2 C2 -> decodes_to a3 C3 ->
  let handed := createWavBuffer (C1 ++ C2 ++ C3) in
  let st' := run ([Message audio_stream_start] ++ chunk_events [a1; a2; a3]
                  ++ [Message audio_stream_end]) st in
  let st'' := dispatch (DecodeSettled (length (decoding st)) true) st' in
  let st0 := run [Message audio_stream_start; Message audio_stream_end] st in
  decoding st' = decoding st ++ [handed]
  /\ drop 44 handed = C1 ++ C2 ++ C3
  /\ rawAudioChunks (audioPlayer st') = [C1; C2; C3]
  /\ rawAudioChunks (audioPlayer st'') = []
  /\ started st'' = started st ++ [handed]
  /\ decoding st'' = decoding st
  /\ dispatch (Message (audio_chunk None)) st = st
  /\ dispatch (Message (audio_chunk (Some ""%string))) st = st
  /\ decoding st0 = decoding st
  /\ started st0 = started st
  /\ status_isError (chatStatus st0) = false.
Proof.
  intros Hempty Hctx H1 H2 H3 handed st' st'' st0.
  assert (Hd : Forall2 decodes_to [a1; a2; a3] [C1; C2; C3])
    by (do 3 (constructor; [assumption|]); constructor).
  destruct (run_utterance _ _ st Hd Hctx) as (E1 & E2 & E3 & E4 & _).
  fold st' in E1, E2, E3, E4. clearbody st'.
  rewrite Hempty in E1, E2. cbn in E1, E2. rewrite !app_nil_r in E1.
  assert (Hd0 : Forall2 decodes_to [] []) by constructor.
  destruct (run_utterance [] [] st Hd0 Hctx) as (F1 & _ & _ & F4 & F5).
  cbn [chunk_events map app] in F1, F4, F5. fold st0 in F1, F4, F5.
  clearbody st0. rewrite Hempty in F1. cbn in F1.
  assert (Hres : decoding st' !! length (decoding st) = Some handed).
  { rewrite E1. rewrite lookup_app_r by lia.
    now rewrite Nat.sub_diag. }
  assert (Hdel : delete (length (decoding st)) (decoding st') = decoding st).
  { rewrite E1. apply delete_last. }
  repeat split; try assumption; try reflexivity.
  - subst handed. rewrite createWavBuffer_eq.
    now rewrite (drop_app_length' _ _ 44) by (now rewrite wav_header_length).
  - subst st''. cbn. unfold play_resume. now rewrite Hres.
  - subst st''. cbn. unfold play_resume. rewrite Hres. cbn. now rewrite E4.
  - subst st''. cbn. unfold play_resume. rewrite Hres. cbn. exact Hdel.
Qed.



(** C8. An inbound message of type "error" received while recording runs
    the stop sequence (recording flag cleared, capture node and
    microphone source released, visualizer stopped, button set to
    processing, settle timer scheduled) and puts the remote message,
    verbatim after the prefix "Server Error: ", in the status line as an
    error. *)
Theorem remote_error_stops_recording (st : Client) (remote : string) :
  isRecording st = true ->
  let st' := dispatch (Message (error_message (Some remote))) st in
  st' = stopStreaming (updateStatus ("Server Error: " ++ remote) true st)
  /\ chatStatus st' = mkStatus ("Server Error: " ++ remote) true
  /\ isRecording st' = false
  /\ scriptNode st' = false
  /\ mediaStreamSource st' = false
  /\ visualizer st' = false
  /\ recordButton st' = btn_processing
  /\ timers st' = S (timers st)
  /\ audioPlayer st' = audioPlayer st.
Proof.
  intros Hrec st'. subst st'. cbn.
  unfold stopStreaming. cbn. rewrite Hrec. cbn. repeat split.
Qed.

End Platform.

(** C7. A capture callback that finds recording stopped or the channel
    not open returns at once: the state, and with it the list of sent
    frames, is unchanged. Conversely, whatever the event, the list of sent
    frames only changes in a capture callback that finds recording active
    and the channel open, and then by exactly one appended frame. *)
Theorem capture_callback_guard (atob : string -> option string)
    (trims_to_empty : string -> bool) (st : Client) (pcmData : list number)
    (ev : Event) :
  (isRecording st = false \/ readyState st <> OPEN ->
   onaudioprocess pcmData st = st)
  /\ (sent (Client.dispatch atob trims_to_empty ev st) <> sent st ->
      isRecording st = true /\ readyState st = OPEN
      /\ exists pcm frame,
           ev = AudioProcess pcm
           /\ Client.dispatch atob trims_to_empty ev st
              = set_sent (sent st ++ [frame]) st).
Proof.
  split.
  - intros [H|H]; unfold onaudioprocess.
    + now rewrite H.
    + destruct (readyState st); try congruence; now rewrite orb_true_r.
  - intros Hsent.
    assert (Hstop : forall s, sent (stopStreaming s) = sent s).
    { intros s. unfold stopStreaming. now destruct (isRecording s). }
    destruct ev as [data|pcm|k ok| | |]; cbn in Hsent.
    + exfalso. apply Hsent. clear Hsent.
      destruct data as [| | |m]; try reflexivity.
      unfold websocket_onmessage.
      destruct (String.eqb (msg_type m) "error"); [now rewrite Hstop|].
      destruct (String.eqb (msg_type m) "transcription").
      { destruct (msg_text m) as [t|]; [|reflexivity].
        now destruct (truthy (Some t) && negb (trims_to_empty t)). }
      destruct (String.eqb (msg_type m) "audio_stream_start"); [reflexivity|].
      destruct (String.eqb (msg_type m) "audio_chunk").
      { unfold handleAudioChunk.
        destruct (msg_audio_data m) as [a|]; [|reflexivity].
        destruct (negb (truthy (Some a))); [reflexivity|].
        now destruct (base64ToArrayBuffer atob a). }
      destruct (String.eqb (msg_type m) "audio_stream_end").
      { unfold handleAudioStreamEnd, play.
        destruct (length (rawAudioChunks _) =? 0)%nat; [reflexivity|].
        now destruct (audioContext _). }
      destruct (String.eqb (msg_type m) "llm_response_text"); [|reflexivity].
      unfold updateAssistantMessage.
      destruct (followed _); [|reflexivity].
      now destruct (replace_last_assistant _ _).
    + cbn [Client.dispatch]. unfold onaudioprocess in *.
      destruct (isRecording st);
        [|cbn [negb orb] in Hsent; exfalso; apply Hsent; reflexivity].
      destruct (readyState st); cbn [negb orb] in Hsent |- *;
        try (exfalso; apply Hsent; reflexivity).
      destruct (resampleBuffer pcm (sampleRate st) TARGET_SAMPLE_RATE)
        as [r|]; [|exfalso; apply Hsent; reflexivity].
      repeat split. eauto.
    + exfalso. apply Hsent. unfold play_resume.
      destruct (decoding st !! k); [|reflexivity]. now destruct ok.
    + exfalso. apply Hsent. unfold settle. now destruct (timers st).
    + exfalso. apply Hsent. unfold websocket_onclose. cbn.
      destruct (isRecording st); [|reflexivity]. now rewrite Hstop.
    + exfalso. apply Hsent. unfold websocket_onerror. cbn.
      destruct (isRecording st); [|reflexivity]. now rewrite Hstop.
Qed.

(** *** Closed instances *)

Lemma decodes_AQI : decodes_to Base64.atob "AQI=" [x01; x02].
Proof. split; [discriminate|]. eexists. split; reflexivity. Qed.

Lemma decodes_Aw : decodes_to Base64.atob "Aw==" [x03].
Proof. split; [discriminate|]. eexists. split; reflexivity. Qed.

Lemma decodes_BAUG : decodes_to Base64.atob "BAUG" [x04; x05; x06].
Proof. split; [discriminate|]. eexists. split; reflexivity. Qed.

(** The utterance of the payloads 01 02, 03 and 04 05 06. *)
Lemma reassembly_in_order_witness :
  let st' :=
    Reference.run
      ([Message audio_stream_start] ++ chunk_events ["AQI="%string; "Aw=="%string; "BAUG"%string]
       ++ [Message audio_stream_end]) Reference.recording in
  decoding st' = [createWavBuffer [x01; x02; x03; x04; x05; x06]]
  /\ drop 44 (createWavBuffer [x01; x02; x03; x04; x05; x06])
     = [x01; x02; x03; x04; x05; x06]
  /\ rawAudioChunks
       (audioPlayer (Reference.dispatch (DecodeSettled 0 true) st')) = [].
Proof.
  destruct (reassembly_in_order Base64.atob Reference.trims_to_empty
              Reference.recording "AQI=" "Aw==" "BAUG"
              [x01; x02] [x03] [x04; x05; x06]
              eq_refl ltac:(discriminate)
              decodes_AQI decodes_Aw decodes_BAUG)
    as (H1 & H2 & _ & H4 & _).
  exact (conj H1 (conj H2 H4)).
Defined.

(** C1 at its failing input: the utterance of the chunks 01 02, 03 and
    04 05 06. The container handed to the decoder holds the six bytes in
    order, as the claim says; but right after [audio_stream_end] was
    handled the Utterance Buffer is not empty: it still holds the three
    chunks, and is emptied only when the decode has succeeded. *)
Theorem buffer_held_after_stream_end :
  let st' :=
    Reference.run
      ([Message audio_stream_start]
       ++ chunk_events ["AQI="%string; "Aw=="%string; "BAUG"%string]
       ++ [Message audio_stream_end]) Reference.recording in
  decoding st' = [createWavBuffer [x01; x02; x03; x04; x05; x06]]
  /\ rawAudioChunks (audioPlayer st') = [[x01; x02]; [x03]; [x04; x05; x06]]
  /\ rawAudioChunks (audioPlayer st') <> []
  /\ rawAudioChunks (audioPlayer (Reference.dispatch (DecodeSettled 0 true) st'))
     = [].
Proof. vm_compute. repeat split. discriminate. Qed.

(** C5 at its failing input: after the decode of a one-chunk utterance
    fails, the Utterance Buffer still holds the chunk and the status line
    reports the error, while after a successful decode of the same
    utterance it is empty. *)
Theorem decode_failure_keeps_buffer :
  let st' :=
    Reference.run
      [Message audio_stream_start; Message (audio_chunk (Some "AQI="%string));
       Message audio_stream_end] Reference.recording in
  decoding st' = [createWavBuffer [x01; x02]]
  /\ rawAudioChunks (audioPlayer (Reference.dispatch (DecodeSettled 0 false) st'))
     = [[x01; x02]]
  /\ chatStatus (Reference.dispatch (DecodeSettled 0 false) st')
     = mkStatus "Error playing back audio" true
  /\ rawAudioChunks (audioPlayer (Reference.dispatch (DecodeSettled 0 true) st'))
     = [].
Proof. vm_compute. repeat split. Qed.




(** The theorem of C8 in the recording state. *)
Lemma remote_error_stops_recording_witness :
  let st' :=
    Reference.dispatch (Message (error_message (Some "quota exceeded"%string)))
      Reference.recording in
  chatStatus st' = mkStatus "Server Error: quota exceeded" true
  /\ isRecording st' = false
  /\ recordButton st' = btn_processing.
Proof.
  destruct (remote_error_stops_recording Base64.atob Reference.trims_to_empty
              Reference.recording "quota exceeded" eq_refl)
    as (_ & H2 & H3 & _ & _ & _ & H7 & _).
  exact (conj H2 (conj H3 H7)).
Defined.

(** The theorem of C7 once recording was stopped, and on a channel that
    is closing. *)
Lemma capture_callback_guard_witness :
  onaudioprocess [0.5; 0.25]%float (stopStreaming Reference.recording)
  = stopStreaming Reference.recording
  /\ (let closing :=
        mkClient true (audioPlayer Reference.recording) [] []
          (chatStatus Reference.recording) [] btn_recording true true true
          CLOSING 48000%float [] 0 in
      onaudioprocess [0.5; 0.25]%float closing = closing).
Proof.
  split.
  - apply (proj1 (capture_callback_guard Base64.atob Reference.trims_to_empty
                    (stopStreaming Reference.recording) [0.5; 0.25]%float
                    SettleTimeout)).
    left. reflexivity.
  - intros closing.
    apply (proj1 (capture_callback_guard Base64.atob Reference.trims_to_empty
                    closing [0.5; 0.25]%float SettleTimeout)).
    right. discriminate.
Defined.

End ClientFacts.

(** ** The encoder at and beyond full scale *)

Module EncoderFacts.
Import Num Audio NumFacts AudioFacts.
Local Open Scope float_scope.

(** The sign of a number, read off its representation. *)
Lemma ltb_zero_sign (x : float) :
  (x <? 0) = match Prim2SF x with
             | S754_finite s _ _ => s
             | S754_infinity s => s
             | _ => false
             end.
Proof.
  rewrite FloatAxioms.ltb_spec, Prim2SF_zero. unfold SFltb, SFcompare.
  destruct (Prim2SF x) as [[]|[]| |[] m e]; reflexivity.
Qed.

(** A number above 1 is not negative, a number below -1 is. *)
Lemma above_one_sign (x : float) : (1 <? x) = true -> (x <? 0) = false.
Proof.
  rewrite ltb_zero_sign, FloatAxioms.ltb_spec, Prim2SF_one.
  generalize 4503599627370496%positive. intros K.
  unfold SFltb, SFcompare.
  destruct (Prim2SF x) as [[]|[]| |[] m e]; intros H;
    try reflexivity; discriminate.
Qed.

Lemma below_minus_one_sign (x : float) : (x <? -1) = true -> (x <? 0) = true.
Proof.
  rewrite ltb_zero_sign, FloatAxioms.ltb_spec, Prim2SF_minus_one.
  generalize 4503599627370496%positive. intros K.
  unfold SFltb, SFcompare.
  destruct (Prim2SF x) as [[]|[]| |[] m e]; intros H;
    try reflexivity; discriminate.
Qed.

(** A clamped sample, scaled, keeps the side of zero it is on. *)
Lemma scaled_sign (x : float) :
  is_nan x = false -> (1 <? x)%float = false -> (x <? -1)%float = false ->
  if (x <? 0)%float then (truncate (x * 32768)%float <= 0)%Z
  else (0 <= truncate (x * 32767)%float)%Z.
Proof.
  intros Hn H1 H2.
  rewrite is_nan_spec in Hn.
  pose proof (ltb_zero_sign x) as Hlt.
  destruct (Prim2SF x) as [b|b| |s m e] eqn:Hx; try discriminate.
  - rewrite Hlt. unfold truncate.
    rewrite FloatAxioms.mul_spec, Hx, Prim2SF_32767. cbn. lia.
  - exfalso. rewrite FloatAxioms.ltb_spec, Hx in H1, H2.
    rewrite Prim2SF_one in H1. rewrite Prim2SF_minus_one in H2.
    destruct b; discriminate.
  - destruct (unit_range_mantissa x s m e Hx H1 H2) as [He Hm].
    rewrite Hlt. unfold truncate.
    assert (Hp : (0 < 2 ^ (- e))%Z) by (apply Z.pow_pos_nonneg; lia).
    destruct s.
    + rewrite FloatAxioms.mul_spec, Hx, Prim2SF_32768. unfold SF64mul, SFmul.
      pose proof (binary_round_aux_le (xorb true false)
                    (m * 4503599627370496) (e + -37) 32768) as Hb.
      destruct (binary_round_aux prec emax (xorb true false)
                  (Z.pos (m * 4503599627370496)) (e + -37) loc_Exact)
        as [b|b| |s' m' e'].
      1-3: lia.
      destruct Hb as [-> Hb].
      * lia.
      * lia.
      * rewrite Pos2Z.inj_mul.
        replace (- (e + -37))%Z with (37 + - e)%Z by lia.
        rewrite Z.pow_add_r by lia.
        change (2 ^ 37)%Z with 137438953472%Z. lia.
      * unfold truncZ. cbn [cond_Zopp xorb].
        pose proof (Z.shiftl_nonneg (Zpos m') e'). lia.
    + rewrite FloatAxioms.mul_spec, Hx, Prim2SF_32767. unfold SF64mul, SFmul.
      pose proof (binary_round_aux_le (xorb false false)
                    (m * 9006924376834048) (e + -38) 32767) as Hb.
      destruct (binary_round_aux prec emax (xorb false false)
                  (Z.pos (m * 9006924376834048)) (e + -38) loc_Exact)
        as [b|b| |s' m' e'].
      1-3: lia.
      destruct Hb as [-> Hb].
      * lia.
      * lia.
      * rewrite Pos2Z.inj_mul.
        replace (- (e + -38))%Z with (38 + - e)%Z by lia.
        rewrite Z.pow_add_r by lia.
        change (2 ^ 38)%Z with 274877906944%Z. lia.
      * unfold truncZ. cbn [cond_Zopp xorb].
        pose proof (Z.shiftl_nonneg (Zpos m') e'). lia.
Qed.

(** The sample the encoder stores for the input sample [x]. *)
Lemma convertTo16BitPCM_lookup (input : list number) (i : nat) (x : number) :
  input !! i = Some x ->
  convertTo16BitPCM input !! i
  = Some (let s := Math_max (-1) (Math_min 1 x) in
          ToInt16 (if s <? 0 then s * 32768 else s * 32767)).
Proof.
  intros Hx. rewrite convertTo16BitPCM_map.
  assert (Hi : (i < length input)%nat) by (eapply lookup_lt_Some; eauto).
  rewrite list_lookup_fmap, lookup_seq_lt by exact Hi. cbn.
  now rewrite (read_lookup _ _ _ Hx).
Qed.

(** X1. [convertTo16BitPCM] clips and keeps the side of zero: for the
    input sample [x] at index [i], the stored sample is 0 if [x] is NaN,
    32767 if [x] is above 1 (infinity included), -32768 if [x] is below
    -1; a negative [x] never gives a positive sample and a [x] that is
    not negative never gives a negative one. No input wraps around. *)
Theorem convertTo16BitPCM_clips (input : list number) (i : nat) (x : number) :
  input !! i = Some x ->
  let y := convertTo16BitPCM input !! i in
  (is_nan x = true -> y = Some 0%Z)
  /\ ((1 <? x) = true -> y = Some 32767%Z)
  /\ ((x <? -1) = true -> y = Some (-32768)%Z)
  /\ (is_nan x = false -> (x <? 0) = true ->
      exists z, y = Some z /\ (-32768 <= z <= 0)%Z)
  /\ (is_nan x = false -> (x <? 0) = false ->
      exists z, y = Some z /\ (0 <= z <= 32767)%Z).
Proof.
  intros Hx y. subst y. rewrite (convertTo16BitPCM_lookup _ _ _ Hx). cbn zeta.
  assert (Hnan : forall a, (1 <? a) = true \/ (a <? -1) = true ->
                           is_nan a = false).
  { intros a. rewrite is_nan_spec, !FloatAxioms.ltb_spec.
    unfold SFltb, SFcompare. rewrite Prim2SF_one, Prim2SF_minus_one.
    generalize 4503599627370496%positive. intros K.
    destruct (Prim2SF a) as [[]|[]| |[] m e]; intros [H|H];
      try reflexivity; discriminate. }
  destruct (clamp_cases x)
    as [[Hn Hs]|[(Hn & H1 & Hs)|[(Hn & H2 & Hs)|(Hn & H1 & H2 & Hs)]]];
    cbn zeta in Hs; rewrite Hs.
  - repeat split; try (intros; congruence).
    + intros H. rewrite (Hnan x (or_introl H)) in Hn. discriminate.
    + intros H. rewrite (Hnan x (or_intror H)) in Hn. discriminate.
  - pose proof (above_one_sign x H1) as H0.
    pose proof (below_not_above x) as Hb.
    repeat split; try (intros; congruence).
    + intros H. rewrite (Hb H) in H1. discriminate.
    + intros _ _. exists 32767%Z. split; [reflexivity|lia].
  - pose proof (below_minus_one_sign x H2) as H0.
    pose proof (below_not_above x H2) as Hb.
    repeat split; try (intros; congruence).
    + intros _ _. exists (-32768)%Z. split; [reflexivity|lia].
  - pose proof (scaled_in_range x Hn H1 H2) as Hr.
    pose proof (scaled_sign x Hn H1 H2) as Hsg.
    unfold ToInt16.
    repeat split; try (intros; congruence).
    + intros _ H0. rewrite H0 in Hr, Hsg |- *. eexists. split; [reflexivity|].
      rewrite wrap16_small by exact Hr. lia.
    + intros _ H0. rewrite H0 in Hr, Hsg |- *. eexists. split; [reflexivity|].
      rewrite wrap16_small by exact Hr. lia.
Qed.

(** The theorem of X1 on a block that starts above full scale and goes on
    below it. *)
Lemma convertTo16BitPCM_clips_witness :
  convertTo16BitPCM [2; -3] !! 0%nat = Some 32767%Z
  /\ convertTo16BitPCM [2; -3] !! 1%nat = Some (-32768)%Z.
Proof.
  split.
  - destruct (convertTo16BitPCM_clips [2; -3] 0 2 eq_refl) as (_ & H & _).
    exact (H eq_refl).
  - destruct (convertTo16BitPCM_clips [2; -3] 1 (-3) eq_refl)
      as (_ & _ & H & _).
    exact (H eq_refl).
Defined.

End EncoderFacts.

(** ** Capture, stop, messages and playback *)

Module HandlerFacts.
Import Bytes Wav Num Audio Client BytesFacts WavFacts ClientFacts Scenarios.

#[local] Arguments createWavBuffer : simpl never.

Lemma stopStreaming_not_recording (st : Client) :
  isRecording st = false -> stopStreaming st = st.
Proof. intros H. unfold stopStreaming. now rewrite H. Qed.

Lemma stopStreaming_isRecording (st : Client) :
  isRecording (stopStreaming st) = false.
Proof.
  unfold stopStreaming. destruct (isRecording st) eqn:E; [reflexivity|exact E].
Qed.

(** Stopping twice is stopping once; what a stop assigns and what it
    leaves alone. *)
Lemma stopStreaming_idempotent (st : Client) :
  let st' := stopStreaming st in
  stopStreaming st' = st'
  /\ isRecording st' = false
  /\ scriptNode st' = (if isRecording st then false else scriptNode st)
  /\ mediaStreamSource st'
     = (if isRecording st then false else mediaStreamSource st)
  /\ timers st' = (if isRecording st then S (timers st) else timers st)
  /\ audioPlayer st' = audioPlayer st
  /\ readyState st' = readyState st
  /\ decoding st' = decoding st
  /\ started st' = started st
  /\ sent st' = sent st
  /\ chatStatus st' = chatStatus st
  /\ chatHistory st' = chatHistory st.
Proof.
  intros st'. subst st'. split.
  - apply stopStreaming_not_recording, stopStreaming_isRecording.
  - unfold stopStreaming. destruct (isRecording st) eqn:E; cbn; rewrite ?E;
      repeat split.
Qed.

Lemma remove_initial_bubbles (h : list ChatNode) :
  Forall is_bubble h -> remove_initial h = h.
Proof.
  induction 1 as [|n h Hn _ IH]; [reflexivity|].
  destruct n; try contradiction. cbn. now rewrite IH.
Qed.

Lemma followed_app (h1 h2 : list ChatNode) :
  followed (h1 ++ h2) = followed h1 && followed h2.
Proof. unfold followed. apply forallb_app. Qed.

Lemma bubbles_followed (h : list ChatNode) :
  Forall is_bubble h -> followed h = true.
Proof.
  induction 1 as [|n h Hn _ IH]; [reflexivity|].
  destruct n; try contradiction. exact IH.
Qed.

Lemma not_assistant_followed (h : list ChatNode) :
  Forall not_assistant h -> followed h = true.
Proof.
  induction 1 as [|n h Hn _ IH]; [reflexivity|].
  destruct n; try contradiction; exact IH.
Qed.

(** In a followed log, a plain text is appended as a bubble of character
    data after the initial message has left. *)
Lemma addMessageToHistory_plain (text : string) (role : Role) (st : Client) :
  followed (chatHistory st) = true -> plain text = true ->
  chatHistory (addMessageToHistory text role st)
  = remove_initial (chatHistory st) ++ [Bubble role text].
Proof.
  intros Hf Hp. unfold addMessageToHistory, written.
  cbn [chatHistory set_chatHistory]. now rewrite Hf, Hp.
Qed.

Lemma replace_last_assistant_none (text : string) (h : list ChatNode) :
  Forall not_assistant h -> replace_last_assistant text h = None.
Proof.
  induction 1 as [|n h Hn _ IH]; [reflexivity|].
  cbn. rewrite IH. destruct n as [|[] t|]; try reflexivity; contradiction.
Qed.

Lemma replace_last_assistant_some (text old : string)
    (pre post : list ChatNode) :
  Forall not_assistant post ->
  replace_last_assistant text (pre ++ Bubble assistant old :: post)
  = Some (pre ++ Bubble assistant text :: post).
Proof.
  intros Hpost. induction pre as [|n pre IH].
  - cbn. now rewrite (replace_last_assistant_none _ _ Hpost).
  - cbn. now rewrite IH.
Qed.

(** X2. In a chat log whose messages hold character data only,
    [updateAssistantMessage(text)] rewrites the text of the last
    assistant bubble and nothing else: the nodes before and after it,
    user bubbles and earlier assistant bubbles included, stay as they
    are, and the new text is not parsed. With no assistant bubble in such
    a log the call changes nothing; no bubble is created. *)
Theorem assistant_text_replaces_last_bubble (text old : string)
    (pre post : list ChatNode) (st : Client) :
  followed pre = true ->
  Forall not_assistant post ->
  (chatHistory st = pre ++ Bubble assistant old :: post ->
   updateAssistantMessage text st
   = set_chatHistory (pre ++ Bubble assistant text :: post) st)
  /\ (chatHistory st = post -> updateAssistantMessage text st = st).
Proof.
  intros Hpre Hpost. pose proof (not_assistant_followed _ Hpost) as Hf.
  unfold updateAssistantMessage. split; intros ->.
  - rewrite followed_app. cbn [followed forallb]. fold (followed post).
    rewrite Hpre, Hf. cbn [andb]. now rewrite replace_last_assistant_some.
  - rewrite Hf. now rewrite replace_last_assistant_none.
Qed.

Section Platform.
Variable atob : string -> option string.
Variable trims_to_empty : string -> bool.

Local Abbreviation dispatch := (Client.dispatch atob trims_to_empty).
Local Abbreviation run := (Client.run atob trims_to_empty).
Local Abbreviation decodes_to := (Client.decodes_to atob).

Lemma onaudioprocess_not_recording (pcm : list number) (st : Client) :
  isRecording st = false -> onaudioprocess pcm st = st.
Proof. intros H. unfold onaudioprocess. now rewrite H. Qed.

Lemma run_capture_not_recording (blocks : list (list number)) (st : Client) :
  isRecording st = false -> run (map AudioProcess blocks) st = st.
Proof.
  intros H. induction blocks as [|b blocks IH]; [reflexivity|].
  cbn [map]. rewrite run_cons. cbn [Client.dispatch].
  now rewrite onaudioprocess_not_recording.
Qed.

(** X4. After [stopStreaming()], capture callbacks that still arrive, in
    any number, send nothing and change nothing. *)
Theorem capture_after_stop_is_inert (blocks : list (list number)) (st : Client) :
  run (map AudioProcess blocks) (stopStreaming st) = stopStreaming st
  /\ sent (run (map AudioProcess blocks) (stopStreaming st)) = sent st.
Proof.
  rewrite run_capture_not_recording by apply stopStreaming_isRecording.
  split; [reflexivity|].
  unfold stopStreaming. now destruct (isRecording st).
Qed.

(** What an inbound message never touches, and what it leaves alone
    unless recording is on. *)
Lemma onmessage_frame (data : MessageData) (st : Client) :
  let st' := websocket_onmessage atob trims_to_empty data st in
  sent st' = sent st
  /\ started st' = started st
  /\ (isRecording st = false ->
      isRecording st' = false /\ timers st' = timers st
      /\ recordButton st' = recordButton st).
Proof.
  destruct data as [| | |m]; cbn zeta; try (repeat split; assumption).
  unfold websocket_onmessage.
  destruct (String.eqb (msg_type m) "error").
  { unfold stopStreaming.
    destruct (isRecording (updateStatus _ _ _)) eqn:E; cbn in E |- *;
      repeat split; try congruence. }
  destruct (String.eqb (msg_type m) "transcription").
  { destruct (msg_text m) as [t|]; [|repeat split; assumption].
    destruct (truthy (Some t) && negb (trims_to_empty t));
      repeat split; assumption. }
  destruct (String.eqb (msg_type m) "audio_stream_start");
    [repeat split; assumption|].
  destruct (String.eqb (msg_type m) "audio_chunk").
  { unfold handleAudioChunk.
    destruct (msg_audio_data m) as [a|]; [|repeat split; assumption].
    destruct (negb (truthy (Some a))); [repeat split; assumption|].
    destruct (base64ToArrayBuffer atob a); repeat split; assumption. }
  destruct (String.eqb (msg_type m) "audio_stream_end").
  { unfold handleAudioStreamEnd, play.
    destruct (length (rawAudioChunks _) =? 0)%nat; [repeat split; assumption|].
    destruct (audioContext _); repeat split; assumption. }
  destruct (String.eqb (msg_type m) "llm_response_text");
    [|repeat split; assumption].
  unfold updateAssistantMessage.
  destruct (followed _); [|repeat split; assumption].
  destruct (replace_last_assistant _ _); repeat split; assumption.
Qed.

(** While recording is off, no event but the settle timeout changes the
    recording flag, the pending settle timers or the record button. *)
Lemma dispatch_idle_frame (ev : Event) (st : Client) :
  isRecording st = false -> ev <> SettleTimeout ->
  isRecording (dispatch ev st) = false
  /\ timers (dispatch ev st) = timers st
  /\ recordButton (dispatch ev st) = recordButton st.
Proof.
  intros Hrec Hev. destruct ev as [data|pcm|k ok| | |]; cbn [Client.dispatch].
  - apply (onmessage_frame data st); exact Hrec.
  - rewrite onaudioprocess_not_recording by exact Hrec. auto.
  - unfold play_resume. destruct (decoding st !! k); [|auto].
    destruct ok; cbn; auto.
  - congruence.
  - unfold websocket_onclose. cbn. rewrite Hrec. cbn. auto.
  - unfold websocket_onerror. cbn. rewrite Hrec. cbn. auto.
Qed.

Lemma run_idle_frame (evs : list Event) (st : Client) :
  isRecording st = false -> Forall (fun ev => ev <> SettleTimeout) evs ->
  isRecording (run evs st) = false
  /\ timers (run evs st) = timers st
  /\ recordButton (run evs st) = recordButton st.
Proof.
  intros Hrec Hevs. revert st Hrec.
  induction Hevs as [|ev evs Hev _ IH]; intros st Hrec; [auto|].
  rewrite run_cons.
  destruct (dispatch_idle_frame ev st Hrec Hev) as (H1 & H2 & H3).
  destruct (IH _ H1) as (I1 & I2 & I3).
  rewrite I1, I2, I3, H2, H3. auto.
Qed.

(** X5. Stopping a recording shows the processing button until a
    timeout scheduled by [stopStreaming()] fires: whatever messages,
    capture callbacks, decode results, close and error events of the
    channel arrive in between, the button stays on processing and
    recording stays off; when the timeout fires the button is idle and
    the status line reads "Ready for command.", not as an error, and as
    many timeouts are pending as before the stop. *)
Theorem stop_settles_to_idle (st : Client) (evs : list Event) :
  isRecording st = true ->
  Forall (fun ev => ev <> SettleTimeout) evs ->
  let stopped := stopStreaming st in
  let st' := run (evs ++ [SettleTimeout]) stopped in
  recordButton stopped = btn_processing
  /\ recordButton (run evs stopped) = btn_processing
  /\ recordButton st' = btn_idle
  /\ chatStatus st' = mkStatus "Ready for command." false
  /\ isRecording st' = false
  /\ timers st' = timers st.
Proof.
  intros Hrec Hevs stopped st'.
  assert (Hs : isRecording stopped = false /\ timers stopped = S (timers st)
               /\ recordButton stopped = btn_processing).
  { subst stopped. unfold stopStreaming. rewrite Hrec. cbn. auto. }
  destruct Hs as (S1 & S2 & S3).
  destruct (run_idle_frame evs stopped S1 Hevs) as (I1 & I2 & I3).
  subst st'. rewrite run_app. cbn [Client.run fold_left Client.dispatch].
  fold (run evs stopped). unfold settle. rewrite I2, S2. cbn.
  rewrite ?I1, ?I3, ?S3. repeat split.
Qed.

(** X6. [websocket.onclose] and [websocket.onerror] set their status line
    and then stop a recording that is on. When an error event or an
    [error] message of the server is followed by the close event, the
    recording is stopped once (one settle timeout is scheduled, none if
    recording was off), the status line ends as "Recording stopped.",
    which replaces the error text, and the player is not touched. *)
Theorem channel_loss_stops_recording (st : Client) (remote : option string) :
  websocket_onclose st
  = stopStreaming (updateStatus "Recording stopped." false st)
  /\ websocket_onerror st
     = stopStreaming (updateStatus "WebSocket connection error." true st)
  /\ (let lost := run [ChannelError; ChannelClosed] st in
      isRecording lost = false
      /\ chatStatus lost = mkStatus "Recording stopped." false
      /\ timers lost = (if isRecording st then S (timers st) else timers st)
      /\ recordButton lost
         = (if isRecording st then btn_processing else recordButton st)
      /\ audioPlayer lost = audioPlayer st)
  /\ (let refused := run [Message (error_message remote); ChannelClosed] st in
      isRecording refused = false
      /\ chatStatus refused = mkStatus "Recording stopped." false
      /\ timers refused = (if isRecording st then S (timers st) else timers st)
      /\ audioPlayer refused = audioPlayer st).
Proof.
  cbn [Client.run fold_left Client.dispatch].
  unfold websocket_onmessage, error_message.
  cbn [msg_type msg_message String.eqb Ascii.eqb Bool.eqb].
  unfold websocket_onclose, websocket_onerror, stopStreaming. cbn.
  destruct (isRecording st) eqn:E; cbn; rewrite ?E; repeat split;
    exact E.
Qed.

(** X7. [base64ToArrayBuffer] throws exactly when [atob] throws;
    otherwise its buffer has one byte for each character of the decoded
    binary string, and the byte at each index is the character code
    there. *)
Theorem base64ToArrayBuffer_decoded (a : string) :
  base64ToArrayBuffer atob a = string_bytes <$> atob a
  /\ (forall bytes, base64ToArrayBuffer atob a = Some bytes ->
      exists b, atob a = Some b /\ length bytes = String.length b
                /\ forall i, (i < String.length b)%nat ->
                     getUint8 bytes i = charCodeAt b i).
Proof.
  assert (E : base64ToArrayBuffer atob a = string_bytes <$> atob a).
  { destruct (atob a) as [b|] eqn:Hb.
    - now rewrite (base64ToArrayBuffer_bytes _ _ _ Hb).
    - unfold base64ToArrayBuffer. now rewrite Hb. }
  split; [exact E|]. intros bytes Hbytes. rewrite E in Hbytes.
  destruct (atob a) as [b|]; [|discriminate]. injection Hbytes as <-.
  exists b. split; [reflexivity|]. clear E.
  unfold string_bytes, getUint8, charCodeAt. split.
  - rewrite length_map. induction b as [|c b IH]; [reflexivity|].
    cbn. now rewrite IH.
  - induction b as [|c b IH]; intros i Hi; [cbn in Hi; lia|].
    destruct i as [|i]; cbn.
    + rewrite <- ToUint8_charCode, ToUint8_to_Z.
      apply Z.mod_small.
      pose proof (N_ascii_bounded c). lia.
    + apply IH. cbn in Hi. lia.
Qed.

(** X8. [play()] on a player with a context and a chunk list that is not
    empty hands one container to the decoder: a 44-byte header followed
    by the bytes of all queued chunks in their order, nothing else of the
    page changing before the decode settles. *)
Theorem play_frames_all_chunks (st : Client) :
  let chunks := rawAudioChunks (audioPlayer st) in
  let wavBuffer := createWavBuffer (concat chunks) in
  chunks <> [] ->
  audioContext (audioPlayer st) <> None ->
  play st = set_decoding (decoding st ++ [wavBuffer]) st
  /\ drop 44 wavBuffer = concat chunks
  /\ length wavBuffer = (44 + length (concat chunks))%nat.
Proof.
  intros chunks wavBuffer Hne Hctx. unfold play. fold chunks.
  destruct chunks as [|c cs] eqn:E; [congruence|]. cbn [length Nat.eqb].
  destruct (audioContext (audioPlayer st)); [|congruence].
  rewrite combine_concat. subst wavBuffer. rewrite createWavBuffer_eq.
  split; [reflexivity|]. split.
  - now rewrite (drop_app_length' _ _ 44) by (now rewrite wav_header_length).
  - now rewrite length_app, wav_header_length.
Qed.

(** What each event does to the containers in flight. *)
Lemma dispatch_containers (ev : Event) (st : Client) :
  (decoding (dispatch ev st) = decoding st
   /\ started (dispatch ev st) = started st)
  \/ (exists pcm,
        decoding (dispatch ev st) = decoding st ++ [createWavBuffer pcm]
        /\ started (dispatch ev st) = started st)
  \/ (exists k w,
        ev = DecodeSettled k false /\ decoding st !! k = Some w
        /\ decoding (dispatch ev st) = delete k (decoding st)
        /\ started (dispatch ev st) = started st)
  \/ (exists k w,
        ev = DecodeSettled k true /\ decoding st !! k = Some w
        /\ decoding (dispatch ev st) = delete k (decoding st)
        /\ started (dispatch ev st) = started st ++ [w]).
Proof.
  assert (Hstop : forall s, decoding (stopStreaming s) = decoding s
                            /\ started (stopStreaming s) = started s).
  { intros s. unfold stopStreaming. now destruct (isRecording s). }
  destruct ev as [data|pcm|k ok| | |]; cbn [Client.dispatch].
  - destruct data as [| | |m]; try (left; split; reflexivity).
    unfold websocket_onmessage.
    destruct (String.eqb (msg_type m) "error").
    { left. destruct (Hstop (updateStatus ("Server Error: "
                       ++ template (msg_message m)) true st)) as [-> ->].
      split; reflexivity. }
    destruct (String.eqb (msg_type m) "transcription").
    { left. destruct (msg_text m) as [t|]; [|split; reflexivity].
      destruct (truthy (Some t) && negb (trims_to_empty t)); split; reflexivity. }
    destruct (String.eqb (msg_type m) "audio_stream_start");
      [left; split; reflexivity|].
    destruct (String.eqb (msg_type m) "audio_chunk").
    { left. unfold handleAudioChunk.
      destruct (msg_audio_data m) as [a|]; [|split; reflexivity].
      destruct (negb (truthy (Some a))); [split; reflexivity|].
      destruct (base64ToArrayBuffer atob a); split; reflexivity. }
    destruct (String.eqb (msg_type m) "audio_stream_end").
    { unfold handleAudioStreamEnd, play.
      destruct (length (rawAudioChunks _) =? 0)%nat; [left; split; reflexivity|].
      destruct (audioContext _); [|left; split; reflexivity].
      right. left. eexists. split; reflexivity. }
    destruct (String.eqb (msg_type m) "llm_response_text");
      [|left; split; reflexivity].
    left. unfold updateAssistantMessage.
    destruct (followed _); [|split; reflexivity].
    destruct (replace_last_assistant _ _); split; reflexivity.
  - left. unfold onaudioprocess.
    destruct (negb (isRecording st) || _); [split; reflexivity|].
    destruct (resampleBuffer _ _ _); split; reflexivity.
  - unfold play_resume. destruct (decoding st !! k) as [w|] eqn:E;
      [|left; split; reflexivity].
    destruct ok.
    + right. right. right. exists k, w. repeat split. exact E.
    + right. right. left. exists k, w. repeat split. exact E.
  - left. unfold settle. destruct (timers st); split; reflexivity.
  - left. unfold websocket_onclose. cbn.
    destruct (isRecording st); [|split; reflexivity].
    destruct (Hstop (updateStatus "Recording stopped." false st)) as [-> ->].
    split; reflexivity.
  - left. unfold websocket_onerror. cbn.
    destruct (isRecording st); [|split; reflexivity].
    destruct (Hstop (updateStatus "WebSocket connection error." true st))
      as [-> ->].
    split; reflexivity.
Qed.

(** X9. Starting with no decode pending and nothing played, after any
    sequence of events every buffer that is waiting for its decode or
    was started is a container built by [createWavBuffer]: it begins
    with RIFF, is 44 bytes longer than its audio, and everything after
    the header is that audio. *)
Theorem decoder_only_sees_containers (evs : list Event) (st : Client) :
  decoding st = [] -> started st = [] ->
  forall w, w ∈ decoding (run evs st) ++ started (run evs st) ->
  exists pcm, w = createWavBuffer pcm
              /\ length w = (44 + length pcm)%nat
              /\ take 4 w = string_bytes "RIFF"
              /\ drop 44 w = pcm.
Proof.
  intros Hd Hs.
  assert (Hinv : forall w, w ∈ decoding (run evs st) ++ started (run evs st) ->
                           exists pcm, w = createWavBuffer pcm).
  { assert (H0 : forall w, w ∈ decoding st ++ started st ->
                           exists pcm, w = createWavBuffer pcm).
    { rewrite Hd, Hs. intros w Hw. inversion Hw. }
    clear Hd Hs. revert st H0.
    induction evs as [|ev evs IH]; intros st H0; [exact H0|].
    rewrite run_cons. apply IH. intros w Hw.
    destruct (dispatch_containers ev st)
      as [[E1 E2]|[(pcm & E1 & E2)|[(k & w' & _ & Hk & E1 & E2)
                                   |(k & w' & _ & Hk & E1 & E2)]]];
      rewrite E1, E2 in Hw.
    - apply H0, Hw.
    - rewrite elem_of_app in Hw. destruct Hw as [Hw|Hw].
      + rewrite elem_of_app in Hw. destruct Hw as [Hw|Hw].
        * apply H0. rewrite elem_of_app. now left.
        * apply list_elem_of_singleton in Hw. subst w. now exists pcm.
      + apply H0. rewrite elem_of_app. now right.
    - apply H0. rewrite elem_of_app in Hw |- *. destruct Hw as [Hw|Hw].
      + left. eapply list_elem_of_delete_inv, Hw.
      + now right.
    - rewrite elem_of_app in Hw. destruct Hw as [Hw|Hw].
      + apply H0. rewrite elem_of_app. left.
        eapply list_elem_of_delete_inv, Hw.
      + rewrite elem_of_app in Hw. destruct Hw as [Hw|Hw].
        * apply H0. rewrite elem_of_app. now right.
        * apply list_elem_of_singleton in Hw. subst w. apply H0.
          rewrite elem_of_app. left. eapply list_elem_of_lookup_2, Hk. }
  intros w Hw. destruct (Hinv w Hw) as [pcm ->]. exists pcm.
  rewrite createWavBuffer_eq. repeat split.
Qed.

(** X11. A parsed message changes nothing on the page when its type is
    none of the six the handler knows, when it is a [transcription]
    whose text is missing, empty or blank, and when it is an
    [audio_chunk] whose payload is missing, empty, or refused by
    [atob]. *)
Theorem unhandled_messages_change_nothing (m : InboundMessage) (st : Client) :
  (msg_type m <> "error" /\ msg_type m <> "transcription"
   /\ msg_type m <> "audio_stream_start" /\ msg_type m <> "audio_chunk"
   /\ msg_type m <> "audio_stream_end" /\ msg_type m <> "llm_response_text")%string
  \/ (msg_type m = "transcription"
      /\ match msg_text m with
         | Some t => t = "" \/ trims_to_empty t = true
         | None => True
         end)%string
  \/ (msg_type m = "audio_chunk"
      /\ match msg_audio_data m with
         | Some a => a = "" \/ atob a = None
         | None => True
         end)%string ->
  dispatch (Message (Json m)) st = st.
Proof.
  cbn [Client.dispatch]. unfold websocket_onmessage.
  intros [(H1 & H2 & H3 & H4 & H5 & H6)|[[Ht Htext]|[Ht Hdata]]].
  - apply String.eqb_neq in H1, H2, H3, H4, H5, H6.
    now rewrite H1, H2, H3, H4, H5, H6.
  - rewrite Ht. cbn.
    destruct (msg_text m) as [t|]; [|reflexivity].
    destruct Htext as [->|Ht']; [reflexivity|].
    rewrite Ht'. now rewrite andb_false_r.
  - rewrite Ht. cbn. unfold handleAudioChunk.
    destruct (msg_audio_data m) as [a|]; [|reflexivity].
    destruct Hdata as [->|Ha]; [reflexivity|].
    destruct (negb (truthy (Some a))); [reflexivity|].
    unfold base64ToArrayBuffer. now rewrite Ha.
Qed.

(** X12. One turn of a conversation, in a log of character data: a
    transcription with visible text that the HTML parser reads as
    character data (no "<", no "&", no NUL, no carriage return), then an
    utterance (start marker, chunks, end marker), then the text of the
    reply, whatever it is. The initial message of the log, if still
    there, is removed; the log gains the user bubble and one assistant
    bubble, the placeholder of the start marker rewritten to the reply;
    the chunks queued so far, those of the utterance last, are handed to
    the decoder as one container (nothing is handed over when there is no
    chunk); nothing is played before the decode settles. *)
Theorem conversation_transcript (st : Client) (fresh : bool)
    (h : list ChatNode) (said reply : string) (payloads : list string)
    (decoded : list buffer) :
  chatHistory st = (if fresh then [InitialMessage] else []) ++ h ->
  Forall is_bubble h ->
  said <> ""%string -> trims_to_empty said = false -> plain said = true ->
  Forall2 decodes_to payloads decoded ->
  audioContext (audioPlayer st) <> None ->
  let st' :=
    run ([Message (transcription said)] ++ utterance payloads
         ++ [Message (llm_response_text reply)]) st in
  chatHistory st' = h ++ [Bubble user said; Bubble assistant reply]
  /\ decoding st'
     = match rawAudioChunks (audioPlayer st) ++ decoded with
       | [] => decoding st
       | chunks => decoding st ++ [createWavBuffer (concat chunks)]
       end
  /\ started st' = started st.
Proof.
  intros Hh Hb Hne Htrim Hplain Hd Hctx st'. subst st'.
  pose proof (bubbles_followed _ Hb) as Hfh.
  rewrite run_app, run_app. cbn [Client.run fold_left].
  set (st1 := dispatch (Message (transcription said)) st).
  assert (E1 : st1 = addMessageToHistory said user st).
  { subst st1. cbn [Client.dispatch]. unfold transcription, websocket_onmessage.
    cbn [msg_type msg_text String.eqb Ascii.eqb Bool.eqb].
    destruct (String.eqb_spec said "") as [->|_]; [congruence|].
    unfold truthy.
    destruct (String.eqb_spec said "") as [->|_]; [congruence|].
    cbn [negb andb]. now rewrite Htrim. }
  clearbody st1.
  assert (Hh1 : chatHistory st1 = h ++ [Bubble user said]).
  { rewrite E1, addMessageToHistory_plain, Hh; [|rewrite Hh|exact Hplain].
    - destruct fresh; cbn [app remove_initial];
        now rewrite ?remove_initial_bubbles.
    - destruct fresh; exact Hfh. }
  fold (run (utterance payloads) st1).
  assert (Hctx1 : audioContext (audioPlayer st1) <> None) by now rewrite E1.
  destruct (run_utterance atob trims_to_empty payloads decoded st1 Hd Hctx1)
    as (U1 & U2 & U3 & U4 & U5).
  fold (utterance payloads) in U1, U2, U3, U4, U5.
  assert (Hh2 : chatHistory (run (utterance payloads) st1)
                = h ++ [Bubble user said; Bubble assistant "..."]).
  { unfold utterance. rewrite run_app, run_app.
    cbn [Client.run fold_left]. rewrite dispatch_start, dispatch_end.
    fold (run (chunk_events payloads) (handleAudioStreamStart st1)).
    rewrite (run_chunks _ _ _ _ _ Hd).
    assert (Hend : forall s, chatHistory (handleAudioStreamEnd s) = chatHistory s).
    { intros s. unfold handleAudioStreamEnd, play. cbn.
      destruct (length (rawAudioChunks (audioPlayer s)) =? 0)%nat; [reflexivity|].
      now destruct (audioContext (audioPlayer s)). }
    rewrite Hend. cbn [set_audioPlayer chatHistory].
    unfold handleAudioStreamStart.
    rewrite addMessageToHistory_plain;
      cbn [chatHistory updateStatus]; rewrite ?Hh1; [| |reflexivity].
    - rewrite remove_initial_bubbles.
      + now rewrite <- app_assoc.
      + apply Forall_app. split; [exact Hb|]. repeat constructor.
    - rewrite followed_app, Hfh. reflexivity. }
  set (st2 := run (utterance payloads) st1) in *. clearbody st2.
  cbn [Client.dispatch]. unfold llm_response_text, websocket_onmessage.
  cbn [msg_type msg_text String.eqb Ascii.eqb Bool.eqb].
  unfold updateAssistantMessage. rewrite Hh2.
  rewrite followed_app, Hfh. cbn [followed forallb andb].
  replace (h ++ [Bubble user said; Bubble assistant "..."])
    with ((h ++ [Bubble user said]) ++ Bubble assistant "..." :: [])
    by now rewrite <- app_assoc.
  rewrite replace_last_assistant_some by constructor.
  cbn [set_chatHistory chatHistory decoding started].
  rewrite <- app_assoc. cbn [app]. rewrite U1, U4. rewrite E1.
  repeat split.
Qed.

(** A decode that succeeds: the container leaves the pending list, is
    started, and the chunk list is reset. *)
Lemma play_resume_success (k : nat) (w : buffer) (st : Client) :
  decoding st !! k = Some w ->
  let st' := play_resume k true st in
  decoding st' = delete k (decoding st)
  /\ started st' = started st ++ [w]
  /\ rawAudioChunks (audioPlayer st') = []
  /\ audioContext (audioPlayer st') = audioContext (audioPlayer st).
Proof.
  intros H. unfold play_resume. rewrite H. cbn. repeat split.
Qed.

(** X13. Two utterances, the decode of the first succeeding before the
    second begins: the first container is played, and the container
    handed to the decoder for the second holds the chunks of the second
    utterance only. *)
Theorem consecutive_utterances_are_separate (st : Client)
    (first second : list string) (decoded1 decoded2 : list buffer) :
  rawAudioChunks (audioPlayer st) = [] ->
  audioContext (audioPlayer st) <> None ->
  Forall2 decodes_to first decoded1 -> decoded1 <> [] ->
  Forall2 decodes_to second decoded2 -> decoded2 <> [] ->
  let k := length (decoding st) in
  let st' :=
    run (utterance first ++ [DecodeSettled k true] ++ utterance second) st in
  started st' = started st ++ [createWavBuffer (concat decoded1)]
  /\ decoding st' = decoding st ++ [createWavBuffer (concat decoded2)]
  /\ rawAudioChunks (audioPlayer st') = decoded2.
Proof.
  intros Hempty Hctx Hd1 Hne1 Hd2 Hne2 k st'. subst st'.
  rewrite run_app, run_app.
  destruct (run_utterance atob trims_to_empty first decoded1 st Hd1 Hctx)
    as (U1 & U2 & U3 & U4 & _).
  fold (utterance first) in U1, U2, U3, U4.
  set (s1 := run (utterance first) st) in *. clearbody s1.
  rewrite Hempty in U1, U2. cbn [app] in U1, U2.
  destruct decoded1 as [|d ds] eqn:Ed; [congruence|]. rewrite <- Ed in *.
  assert (U1' : decoding s1 = decoding st ++ [createWavBuffer (concat decoded1)])
    by (rewrite U1, Ed; reflexivity).
  assert (Hk : decoding s1 !! k = Some (createWavBuffer (concat decoded1))).
  { rewrite U1'. subst k. rewrite lookup_app_r by lia.
    now rewrite Nat.sub_diag. }
  cbn [Client.run fold_left Client.dispatch].
  destruct (play_resume_success k _ s1 Hk) as (P1 & P2 & P3 & P4).
  set (s2 := play_resume k true s1) in *. clearbody s2.
  fold (run (utterance second) s2).
  assert (Hctx2 : audioContext (audioPlayer s2) <> None) by congruence.
  destruct (run_utterance atob trims_to_empty second decoded2 s2 Hd2 Hctx2)
    as (V1 & V2 & _ & V4 & _).
  fold (utterance second) in V1, V2, V4.
  rewrite V1, V2, V4, P1, P2, P3, U1', U4. cbn [app].
  subst k. rewrite delete_last.
  destruct decoded2; [congruence|]. repeat split.
Qed.

(** X14. Chunks that arrive while the decode of the previous utterance is
    pending are lost: when that decode succeeds the chunk list is reset,
    the chunks of the next utterance with it, and the end marker that
    follows hands nothing to the decoder. *)
Theorem chunks_during_decode_are_dropped (st : Client)
    (first second : list string) (decoded1 decoded2 : list buffer) :
  rawAudioChunks (audioPlayer st) = [] ->
  audioContext (audioPlayer st) <> None ->
  Forall2 decodes_to first decoded1 -> decoded1 <> [] ->
  Forall2 decodes_to second decoded2 ->
  let k := length (decoding st) in
  let st' :=
    run (utterance first
         ++ [Message audio_stream_start] ++ chunk_events second
         ++ [DecodeSettled k true; Message audio_stream_end]) st in
  started st' = started st ++ [createWavBuffer (concat decoded1)]
  /\ decoding st' = decoding st
  /\ rawAudioChunks (audioPlayer st') = [].
Proof.
  intros Hempty Hctx Hd1 Hne1 Hd2 k st'. subst st'.
  rewrite run_app, run_app, run_app.
  destruct (run_utterance atob trims_to_empty first decoded1 st Hd1 Hctx)
    as (U1 & U2 & U3 & U4 & _).
  fold (utterance first) in U1, U2, U3, U4.
  set (s1 := run (utterance first) st) in *. clearbody s1.
  rewrite Hempty in U1, U2. cbn [app] in U1, U2.
  destruct decoded1 as [|d ds] eqn:Ed; [congruence|]. rewrite <- Ed in *.
  assert (U1' : decoding s1 = decoding st ++ [createWavBuffer (concat decoded1)])
    by (rewrite U1, Ed; reflexivity).
  replace (run [Message audio_stream_start] s1)
    with (handleAudioStreamStart s1) by reflexivity.
  rewrite (run_chunks _ _ _ _ _ Hd2).
  set (s2 := set_audioPlayer _ (handleAudioStreamStart s1)).
  assert (Hk : decoding s2 !! k = Some (createWavBuffer (concat decoded1))).
  { subst s2. cbn. rewrite U1'. subst k. rewrite lookup_app_r by lia.
    now rewrite Nat.sub_diag. }
  assert (E2 : decoding s2 = decoding s1 /\ started s2 = started s1
               /\ audioContext (audioPlayer s2) = audioContext (audioPlayer s1))
    by (subst s2; cbn; auto).
  destruct E2 as (E2d & E2s & E2c). clearbody s2.
  cbn [Client.run fold_left Client.dispatch].
  destruct (play_resume_success k _ s2 Hk) as (P1 & P2 & P3 & P4).
  set (s3 := play_resume k true s2) in *. clearbody s3.
  unfold websocket_onmessage, audio_stream_end.
  cbn [msg_type String.eqb Ascii.eqb Bool.eqb].
  unfold handleAudioStreamEnd, play.
  cbn [audioPlayer updateStatus]. rewrite P3. cbn.
  rewrite P1, P2, P3, E2d, E2s, U1', U4. subst k. rewrite delete_last.
  repeat split.
Qed.

(** A decode that fails: the container leaves the pending list, nothing
    is started, and the player keeps its chunks. *)
Lemma play_resume_failure (k : nat) (w : buffer) (st : Client) :
  decoding st !! k = Some w ->
  let st' := play_resume k false st in
  decoding st' = delete k (decoding st)
  /\ started st' = started st
  /\ audioPlayer st' = audioPlayer st
  /\ chatStatus st' = mkStatus "Error playing back audio" true.
Proof.
  intros H. unfold play_resume. rewrite H. cbn. repeat split.
Qed.

(** X15. After a decode that fails, the chunks of the utterance stay in
    the chunk list and the status line reports the playback error; the
    container handed to the decoder at the end of the next utterance
    holds the audio of the failed utterance again, followed by the new
    chunks. *)
Theorem failed_decode_replays_chunks (st : Client)
    (first second : list string) (decoded1 decoded2 : list buffer) :
  rawAudioChunks (audioPlayer st) = [] ->
  audioContext (audioPlayer st) <> None ->
  Forall2 decodes_to first decoded1 -> decoded1 <> [] ->
  Forall2 decodes_to second decoded2 ->
  let k := length (decoding st) in
  let failed := run (utterance first ++ [DecodeSettled k false]) st in
  let st' := run (utterance second) failed in
  chatStatus failed = mkStatus "Error playing back audio" true
  /\ rawAudioChunks (audioPlayer failed) = decoded1
  /\ decoding failed = decoding st
  /\ started st' = started st
  /\ decoding st'
     = decoding st ++ [createWavBuffer (concat (decoded1 ++ decoded2))]
  /\ rawAudioChunks (audioPlayer st') = decoded1 ++ decoded2.
Proof.
  intros Hempty Hctx Hd1 Hne1 Hd2 k failed st'. subst st' failed.
  rewrite run_app.
  destruct (run_utterance atob trims_to_empty first decoded1 st Hd1 Hctx)
    as (U1 & U2 & U3 & U4 & _).
  fold (utterance first) in U1, U2, U3, U4.
  set (s1 := run (utterance first) st) in *. clearbody s1.
  rewrite Hempty in U1, U2. cbn [app] in U1, U2.
  destruct decoded1 as [|d ds] eqn:Ed; [congruence|]. rewrite <- Ed in *.
  assert (U1' : decoding s1 = decoding st ++ [createWavBuffer (concat decoded1)])
    by (rewrite U1, Ed; reflexivity).
  assert (Hk : decoding s1 !! k = Some (createWavBuffer (concat decoded1))).
  { rewrite U1'. subst k. rewrite lookup_app_r by lia.
    now rewrite Nat.sub_diag. }
  cbn [Client.run fold_left Client.dispatch].
  destruct (play_resume_failure k _ s1 Hk) as (P1 & P2 & P3 & P4).
  set (s2 := play_resume k false s1) in *. clearbody s2.
  fold (run (utterance second) s2).
  assert (Hctx2 : audioContext (audioPlayer s2) <> None) by congruence.
  destruct (run_utterance atob trims_to_empty second decoded2 s2 Hd2 Hctx2)
    as (V1 & V2 & _ & V4 & _).
  fold (utterance second) in V1, V2, V4.
  rewrite V1, V2, V4, P1, P2, P3, P4, U1', U2, U4.
  subst k. rewrite delete_last. rewrite Ed. cbn [app].
  repeat split.
Qed.

End Platform.
(** *** Closed instances *)

(** The theorem of X2 on a log of one user bubble and the placeholder. *)
Lemma assistant_text_replaces_last_bubble_witness :
  let st :=
    set_chatHistory [Bubble user "hello"; Bubble assistant "..."]
      Reference.recording in
  updateAssistantMessage "Hi there" st
  = set_chatHistory [Bubble user "hello"; Bubble assistant "Hi there"] st.
Proof.
  intros st.
  apply (proj1 (assistant_text_replaces_last_bubble "Hi there" "..."
                  [Bubble user "hello"] [] st eq_refl ltac:(constructor))).
  reflexivity.
Defined.

(** The theorem of X5 with a capture callback and a start marker
    arriving before the timeout. *)
Lemma stop_settles_to_idle_witness :
  let st' :=
    Reference.run
      ([AudioProcess [0.5]%float; Message audio_stream_start]
       ++ [SettleTimeout]) (stopStreaming Reference.recording) in
  recordButton
    (Reference.run [AudioProcess [0.5]%float; Message audio_stream_start]
       (stopStreaming Reference.recording))
  = btn_processing
  /\ recordButton st' = btn_idle
  /\ chatStatus st' = mkStatus "Ready for command." false.
Proof.
  destruct (stop_settles_to_idle Base64.atob Reference.trims_to_empty
              Reference.recording
              [AudioProcess [0.5]%float; Message audio_stream_start]
              eq_refl
              ltac:(repeat constructor; discriminate))
    as (_ & H2 & H3 & H4 & _).
  exact (conj H2 (conj H3 H4)).
Defined.

(** The theorem of X8 on a player holding the chunks 01 02 and 03. *)
Lemma play_frames_all_chunks_witness :
  let st :=
    set_audioPlayer
      {| audioContext := Some ctx_running;
         rawAudioChunks := [[x01; x02]; [x03]] |} Reference.recording in
  play st = set_decoding [createWavBuffer [x01; x02; x03]] st
  /\ drop 44 (createWavBuffer [x01; x02; x03]) = [x01; x02; x03].
Proof.
  intros st.
  destruct (play_frames_all_chunks st ltac:(discriminate) ltac:(discriminate))
    as (H1 & H2 & _).
  exact (conj H1 H2).
Defined.

(** The theorem of X9 on the container of the utterance 01 02, once
    played. *)
Lemma decoder_only_sees_containers_witness :
  exists pcm,
    createWavBuffer [x01; x02] = createWavBuffer pcm
    /\ length (createWavBuffer [x01; x02]) = (44 + length pcm)%nat
    /\ take 4 (createWavBuffer [x01; x02]) = string_bytes "RIFF"
    /\ drop 44 (createWavBuffer [x01; x02]) = pcm.
Proof.
  apply (decoder_only_sees_containers Base64.atob Reference.trims_to_empty
           (utterance ["AQI="%string] ++ [DecodeSettled 0 true])
           Reference.recording eq_refl eq_refl).
  vm_compute. apply list_elem_of_here.
Defined.

(** The theorem of X11 on a message of an unknown type and on a chunk
    whose payload is not base64. *)
Lemma unhandled_messages_change_nothing_witness :
  Reference.dispatch (Message (Json (mkMessage "ping" None None None)))
    Reference.recording
  = Reference.recording
  /\ Reference.dispatch (Message (audio_chunk (Some "@@@@"%string)))
       Reference.recording
     = Reference.recording.
Proof.
  split.
  - apply (unhandled_messages_change_nothing Base64.atob
             Reference.trims_to_empty).
    left. repeat split; discriminate.
  - apply (unhandled_messages_change_nothing Base64.atob
             Reference.trims_to_empty).
    right. right. split; [reflexivity|]. right. reflexivity.
Defined.

(** The theorem of X12 on the first turn of a session. *)
Lemma conversation_transcript_witness :
  let st' :=
    Reference.run
      ([Message (transcription "hello")]
       ++ utterance ["AQI="%string; "Aw=="%string]
       ++ [Message (llm_response_text "Hi there")]) Reference.recording in
  chatHistory st' = [Bubble user "hello"; Bubble assistant "Hi there"]
  /\ decoding st' = [createWavBuffer [x01; x02; x03]].
Proof.
  destruct (conversation_transcript Base64.atob Reference.trims_to_empty
              Reference.recording true [] "hello" "Hi there"
              ["AQI="%string; "Aw=="%string] [[x01; x02]; [x03]]
              eq_refl ltac:(constructor) ltac:(discriminate) eq_refl eq_refl
              ltac:(constructor;
                    [exact decodes_AQI
                    |constructor; [exact decodes_Aw|constructor]])
              ltac:(discriminate))
    as (H1 & H2 & _).
  exact (conj H1 H2).
Defined.

(** The theorem of X13 on the utterances 01 02 and 03. *)
Lemma consecutive_utterances_are_separate_witness :
  let st' :=
    Reference.run
      (utterance ["AQI="%string] ++ [DecodeSettled 0 true]
       ++ utterance ["Aw=="%string]) Reference.recording in
  started st' = [createWavBuffer [x01; x02]]
  /\ decoding st' = [createWavBuffer [x03]].
Proof.
  destruct (consecutive_utterances_are_separate Base64.atob
              Reference.trims_to_empty Reference.recording
              ["AQI="%string] ["Aw=="%string] [[x01; x02]] [[x03]]
              eq_refl ltac:(discriminate)
              ltac:(constructor; [exact decodes_AQI|constructor])
              ltac:(discriminate)
              ltac:(constructor; [exact decodes_Aw|constructor])
              ltac:(discriminate))
    as (H1 & H2 & _).
  exact (conj H1 H2).
Defined.

(** The theorem of X14: the chunk 03 arrives while 01 02 is decoding. *)

Lemma chunks_during_decode_are_dropped_witness :
  let st' :=
    Reference.run
      (utterance ["AQI="%string]
       ++ [Message audio_stream_start] ++ chunk_events ["Aw=="%string]
       ++ [DecodeSettled 0 true; Message audio_stream_end])
      Reference.recording in
  started st' = [createWavBuffer [x01; x02]]
  /\ decoding st' = []
  /\ rawAudioChunks (audioPlayer st') = [].
Proof.
  exact (chunks_during_decode_are_dropped Base64.atob
           Reference.trims_to_empty Reference.recording
           ["AQI="%string] ["Aw=="%string] [[x01; x02]] [[x03]]
           eq_refl ltac:(discriminate)
           ltac:(constructor; [exact decodes_AQI|constructor])
           ltac:(discriminate)
           ltac:(constructor; [exact decodes_Aw|constructor])).
Defined.

(** The theorem of X15: the decode of 01 02 fails, then the utterance 03
    ends. *)
Lemma failed_decode_replays_chunks_witness :
  let failed :=
    Reference.run (utterance ["AQI="%string] ++ [DecodeSettled 0 false])
      Reference.recording in
  rawAudioChunks (audioPlayer failed) = [[x01; x02]]
  /\ decoding (Reference.run (utterance ["Aw=="%string]) failed)
     = [createWavBuffer [x01; x02; x03]].
Proof.
  destruct (failed_decode_replays_chunks Base64.atob
              Reference.trims_to_empty Reference.recording
              ["AQI="%string] ["Aw=="%string] [[x01; x02]] [[x03]]
              eq_refl ltac:(discriminate)
              ltac:(constructor; [exact decodes_AQI|constructor])
              ltac:(discriminate)
              ltac:(constructor; [exact decodes_Aw|constructor]))
    as (_ & H2 & _ & _ & H5 & _).
  exact (conj H2 H5).
Defined.

End HandlerFacts.

(** ** Keys, session and channel set-up *)

Module SessionFacts.
Import Bytes Wav Num Audio Client ClientFacts Scenarios Session.

Lemma checkRequiredKeys_result (p : Page) :
  checkRequiredKeys p
  = if required_keys_set (apiKeys p) then (p, true)
    else (set_client
            (updateStatus "API Keys required. Open settings to add them."
               true (client p)) p, false).
Proof.
  unfold checkRequiredKeys, required_keys_set.
  destruct (truthy (gemini (apiKeys p))), (truthy (assemblyai (apiKeys p))),
    (truthy (murf (apiKeys p))); reflexivity.
Qed.

(** X16. A click on the record button while not recording, with one of
    the three required keys missing or empty: the settings dialog is
    shown and the status line asks for the keys as an error; the
    microphone is not requested, the player is not started, no channel
    is opened and nothing is sent. *)
Theorem recording_refused_without_keys (p : Page) :
  isRecording (client p) = false ->
  required_keys_set (apiKeys p) = false ->
  let p' := recordClick p in
  p' = set_settingsModalHidden false
         (set_client
            (updateStatus "API Keys required. Open settings to add them."
               true (client p)) p)
  /\ settingsModalHidden p' = false
  /\ micRequests p' = micRequests p
  /\ isRecording (client p') = false
  /\ audioPlayer (client p') = audioPlayer (client p)
  /\ readyState (client p') = readyState (client p)
  /\ wire p' = wire p.
Proof.
  intros Hrec Hkeys p'. subst p'. unfold recordClick, startStreaming.
  rewrite Hrec, checkRequiredKeys_result, Hkeys. cbn. repeat split.
  exact Hrec.
Qed.

(** X17. Starting a recording with the required keys set. The click
    starts the player (a running context, an empty chunk list) and
    requests the microphone, recording still off. Once the microphone is
    granted and the channel opens, the configuration with the keys is
    the one message sent, recording is on, the button shows recording
    and capture runs at the device rate. If the microphone is denied
    instead, recording stays off, nothing is sent, and the status line
    reports the denial as an error. *)
Theorem recording_starts_after_grant_and_open
    (atob : string -> option string) (trims_to_empty : string -> bool)
    (p : Page) (deviceRate : number) :
  isRecording (client p) = false ->
  required_keys_set (apiKeys p) = true ->
  let clicked := Session.dispatch atob trims_to_empty RecordClick p in
  let opened :=
    Session.run atob trims_to_empty [MicGranted; ChannelOpen deviceRate]
      clicked in
  let denied := Session.dispatch atob trims_to_empty MicDenied clicked in
  (isRecording (client clicked) = false
   /\ micRequests clicked = S (micRequests p)
   /\ audioPlayer (client clicked)
      = {| audioContext := Some ctx_running; rawAudioChunks := [] |}
   /\ wire clicked = wire p)
  /\ (isRecording (client opened) = true
      /\ readyState (client opened) = OPEN
      /\ wire opened = [ConfigMessage (apiKeys p)]
      /\ sampleRate (client opened) = deviceRate
      /\ recordButton (client opened) = btn_recording
      /\ chatStatus (client opened) = mkStatus "Connected. Recording..." false
      /\ sent (client opened) = sent (client p))
  /\ (isRecording (client denied) = false
      /\ chatStatus (client denied)
         = mkStatus "Microphone access denied." true
      /\ readyState (client denied) = readyState (client p)
      /\ wire denied = wire p).
Proof.
  intros Hrec Hkeys clicked opened denied.
  assert (E : clicked
              = set_micRequests (S (micRequests p))
                  (set_client
                     (set_audioPlayer (start (audioPlayer (client p)))
                        (client p)) p)).
  { subst clicked. cbn [Session.dispatch]. unfold recordClick, startStreaming.
    now rewrite Hrec, checkRequiredKeys_result, Hkeys. }
  subst opened denied. rewrite E. clear E clicked.
  cbn. rewrite Hrec. repeat split.
  unfold start.
  destruct (audioContext (audioPlayer (client p))) as [[]|]; reflexivity.
Qed.

(** X18. Clearing the log and starting a new session both reset the chat
    log to its initial message and empty the chunk list, so that an end
    marker arriving afterwards hands nothing to the decoder; neither
    stops a recording, closes the channel or sends anything. A new
    session also takes the fresh identifier. *)
Theorem reset_discards_buffered_audio
    (atob : string -> option string) (trims_to_empty : string -> bool)
    (p : Page) (uuid : string) :
  let cleared := Session.dispatch atob trims_to_empty ClearHistoryClick p in
  let renewed :=
    Session.dispatch atob trims_to_empty (NewSessionClick uuid) p in
  let stream_end := ClientEvent (Message audio_stream_end) in
  (rawAudioChunks (audioPlayer (client cleared)) = []
   /\ chatHistory (client cleared) = [InitialMessage]
   /\ decoding (client (Session.dispatch atob trims_to_empty stream_end cleared))
      = decoding (client p)
   /\ isRecording (client cleared) = isRecording (client p)
   /\ readyState (client cleared) = readyState (client p)
   /\ wire cleared = wire p)
  /\ (rawAudioChunks (audioPlayer (client renewed)) = []
      /\ chatHistory (client renewed) = [InitialMessage]
      /\ sessionId renewed = Some uuid
      /\ decoding
           (client (Session.dispatch atob trims_to_empty stream_end renewed))
         = decoding (client p)
      /\ isRecording (client renewed) = isRecording (client p)
      /\ readyState (client renewed) = readyState (client p)
      /\ wire renewed = wire p).
Proof.
  intros cleared renewed stream_end. subst cleared renewed stream_end.
  cbn [Session.dispatch]. unfold initializeSession, clearHistory.
  rewrite checkRequiredKeys_result.
  destruct (required_keys_set _); cbn; repeat split.
Qed.

Section Platform.
Variable atob : string -> option string.
Variable trims_to_empty : string -> bool.

(** No handler of the client assigns the channel's ready state, and a
    frame is only sent on an open channel. *)
Lemma dispatch_channel (ev : Event) (st : Client) :
  readyState (Client.dispatch atob trims_to_empty ev st) = readyState st
  /\ (sent (Client.dispatch atob trims_to_empty ev st) = sent st
      \/ readyState st = OPEN
         /\ exists frame,
              sent (Client.dispatch atob trims_to_empty ev st)
              = sent st ++ [frame]).
Proof.
  assert (Hstop : forall s, readyState (stopStreaming s) = readyState s
                            /\ sent (stopStreaming s) = sent s).
  { intros s. unfold stopStreaming. now destruct (isRecording s). }
  destruct ev as [data|pcm|k ok| | |]; cbn [Client.dispatch].
  - destruct data as [| | |m]; try (split; [reflexivity|now left]).
    unfold websocket_onmessage.
    destruct (String.eqb (msg_type m) "error").
    { destruct (Hstop (updateStatus ("Server Error: "
                       ++ template (msg_message m)) true st)) as [-> ->].
      split; [reflexivity|now left]. }
    destruct (String.eqb (msg_type m) "transcription").
    { destruct (msg_text m) as [t|]; [|split; [reflexivity|now left]].
      destruct (truthy (Some t) && negb (trims_to_empty t));
        (split; [reflexivity|now left]). }
    destruct (String.eqb (msg_type m) "audio_stream_start");
      [split; [reflexivity|now left]|].
    destruct (String.eqb (msg_type m) "audio_chunk").
    { unfold handleAudioChunk.
      destruct (msg_audio_data m) as [a|]; [|split; [reflexivity|now left]].
      destruct (negb (truthy (Some a))); [split; [reflexivity|now left]|].
      destruct (base64ToArrayBuffer atob a); (split; [reflexivity|now left]). }
    destruct (String.eqb (msg_type m) "audio_stream_end").
    { unfold handleAudioStreamEnd, play.
      destruct (length (rawAudioChunks _) =? 0)%nat;
        [split; [reflexivity|now left]|].
      destruct (audioContext _); (split; [reflexivity|now left]). }
    destruct (String.eqb (msg_type m) "llm_response_text");
      [|split; [reflexivity|now left]].
    unfold updateAssistantMessage.
    destruct (followed _); [|split; [reflexivity|now left]].
    destruct (replace_last_assistant _ _); (split; [reflexivity|now left]).
  - unfold onaudioprocess.
    destruct (isRecording st); [|split; [reflexivity|now left]].
    destruct (readyState st) eqn:Er; cbn [negb orb];
      try (split; [exact Er|now left]).
    destruct (resampleBuffer _ _ _) as [r|]; [|split; [exact Er|now left]].
    split; [exact Er|]. right. split; [reflexivity|]. now eexists.
  - unfold play_resume. destruct (decoding st !! k);
      [|split; [reflexivity|now left]].
    destruct ok; (split; [reflexivity|now left]).
  - unfold settle. destruct (timers st); (split; [reflexivity|now left]).
  - unfold websocket_onclose. cbn.
    destruct (isRecording st); [|split; [reflexivity|now left]].
    destruct (Hstop (updateStatus "Recording stopped." false st)) as [-> ->].
    split; [reflexivity|now left].
  - unfold websocket_onerror. cbn.
    destruct (isRecording st); [|split; [reflexivity|now left]].
    destruct (Hstop (updateStatus "WebSocket connection error." true st))
      as [-> ->].
    split; [reflexivity|now left].
Qed.

Lemma config_first_step (ev : PageEvent) (p : Page) :
  config_first (wire p) ->
  (readyState (client p) = OPEN -> wire p <> []) ->
  config_first (wire (Session.dispatch atob trims_to_empty ev p))
  /\ (readyState (client (Session.dispatch atob trims_to_empty ev p)) = OPEN ->
      wire (Session.dispatch atob trims_to_empty ev p) <> []).
Proof.
  intros Hc Ho.
  destruct ev as [ev| | | |rate|rate|closed| |uuid|]; cbn [Session.dispatch].
  - unfold clientEvent. cbn [wire client set_wire set_client].
    destruct (dispatch_channel ev (client p)) as [Hr [Hs|[Hopen [frame Hs]]]];
      rewrite Hr, Hs.
    + rewrite drop_all. cbn [map]. rewrite app_nil_r. auto.
    + rewrite drop_app_length. cbn [map]. split.
      * destruct (wire p) as [|x w] eqn:E; [now elim (Ho Hopen)|exact Hc].
      * intros _. destruct (wire p); discriminate.
  - unfold recordClick, startStreaming. rewrite checkRequiredKeys_result.
    destruct (negb (isRecording (client p))).
    + destruct (required_keys_set _); cbn; auto.
    + cbn. unfold stopStreaming.
      destruct (isRecording (client p)); cbn; auto.
  - unfold micGranted. destruct (micRequests p); cbn; [auto|].
    split; [exact I|discriminate].
  - unfold micDenied. destruct (micRequests p); cbn; auto.
  - unfold websocket_onopen, onopen_body. cbn. split.
    + destruct (wire p) as [|x w]; cbn; [now eexists|exact Hc].
    + intros _. destruct (wire p); discriminate.
  - unfold stale_onopen, onopen_body.
    destruct (readyState (client p)) eqn:Er; cbn; rewrite ?Er;
      [split; [exact Hc|discriminate]|..];
      (split; [destruct (wire p) as [|x w]; cbn; [now eexists|exact Hc]
              |intros _; destruct (wire p); discriminate]).
  - unfold channelLeavesOpen. cbn. split; [exact Hc|].
    destruct closed; discriminate.
  - unfold clearHistory. cbn. auto.
  - unfold initializeSession. rewrite checkRequiredKeys_result.
    destruct (required_keys_set _); cbn; auto.
  - unfold modalTimeout. destruct (modalTimers p); cbn; auto.
Qed.

(** X19. From a page whose channel is not open and was given nothing,
    whatever happens (clicks, microphone results, open events of this or
    of an earlier channel, close events, messages, capture callbacks,
    decode results, timeouts), what the channel [websocket] holds was
    given is nothing, or begins with the configuration: no audio frame
    goes before the keys. *)
Theorem configuration_is_sent_first (evs : list PageEvent) (p : Page) :
  wire p = [] -> readyState (client p) <> OPEN ->
  config_first (wire (Session.run atob trims_to_empty evs p)).
Proof.
  intros Hw Hr.
  assert (H : config_first (wire p)
              /\ (readyState (client p) = OPEN -> wire p <> [])).
  { rewrite Hw. split; [exact I|]. intros Ho. now elim Hr. }
  clear Hw Hr. revert p H.
  induction evs as [|ev evs IH]; intros p [Hc Ho]; [exact Hc|].
  cbn [Session.run fold_left]. apply IH.
  now apply config_first_step.
Qed.

End Platform.
(** *** Closed instances *)

(** The theorem of X16 on the loaded page with no key stored. *)
Lemma recording_refused_without_keys_witness :
  let p' := recordClick (loaded no_keys "s-1") in
  settingsModalHidden p' = false
  /\ micRequests p' = 0%nat
  /\ isRecording (client p') = false.
Proof.
  destruct (recording_refused_without_keys (loaded no_keys "s-1")
              eq_refl eq_refl)
    as (_ & H2 & H3 & H4 & _).
  exact (conj H2 (conj H3 H4)).
Defined.

(** The theorem of X17 on the loaded page with the required keys and a
    48 kHz device. *)
Lemma recording_starts_after_grant_and_open_witness :
  let opened :=
    Session.run Base64.atob Reference.trims_to_empty
      [RecordClick; MicGranted; ChannelOpen 48000%float]
      (loaded demo_keys "s-1") in
  isRecording (client opened) = true
  /\ wire opened = [ConfigMessage demo_keys].
Proof.
  destruct (recording_starts_after_grant_and_open Base64.atob
              Reference.trims_to_empty (loaded demo_keys "s-1") 48000%float
              eq_refl eq_refl)
    as (_ & (H1 & _ & H3 & _) & _).
  exact (conj H1 H3).
Defined.

(** The theorem of X19 over a session that records, stops, and is
    reached by the open event of an earlier channel. *)
Lemma configuration_is_sent_first_witness :
  config_first
    (wire
       (Session.run Base64.atob Reference.trims_to_empty
          [RecordClick; MicGranted; ChannelOpen 48000%float;
           ClientEvent (AudioProcess [0.5; 0.25; -0.5]%float);
           RecordClick; RecordClick; MicGranted;
           StaleChannelOpen 48000%float; ChannelOpen 48000%float;
           ClientEvent (AudioProcess [0.5; 0.25; -0.5]%float)]
          (loaded demo_keys "s-1"))).
Proof.
  apply (configuration_is_sent_first Base64.atob Reference.trims_to_empty);
    [reflexivity|vm_compute; discriminate].
Defined.

End SessionFacts.
